(** * io-functions-cgn: orchestration coordination and failure classification

    A shallow embedding of the TypeScript sources
    - [utils/errors.ts]            (module [Errors]),
    - [utils/orchestrators.ts]     (module [Orchestrators]),
    - [UpdateExpiredCgn/handler.ts] (module [UpdateExpiredCgn]),
    - [UpsertCgnStatus/handler.ts] (module [UpsertCgnStatus]),
    - [utils/redis_storage.ts]     (module [RedisStorage]),
    - [utils/config.ts]            (module [Config]),
    - [DeleteEycaActivity]         (module [DeleteEycaActivity]),
    followed by the properties proved about them.

    Conventions.  A JavaScript [Error] is a record carrying its [message].
    A template literal is a concatenation of strings.  A promise that the
    code awaits is modelled by its settled value; a [TaskEither] is the
    [Either] it resolves to together with the calls it made, recorded in
    order in a list of events.  Collaborators that the code receives from
    outside (the durable-functions client, the table and document stores,
    the Redis client) are records of answers handed to the function. *)

From Stdlib Require Import String Ascii List ZArith Bool Lia.
From stdpp Require Import gmap strings list fin_maps pretty.

Open Scope string_scope.

(** ** fp-ts and JavaScript basics *)

Module Js.

(** [Error]: only the [message] is observed by the code. *)
Record Error := mkError { message : string }.

(** fp-ts [Either]. *)
Inductive Either (E A : Type) : Type :=
| Left (e : E)
| Right (a : A).
Arguments Left {E A} e.
Arguments Right {E A} a.

Definition isLeft {E A} (x : Either E A) : bool :=
  match x with Left _ => true | Right _ => false end.

Definition map {E A B} (f : A -> B) (x : Either E A) : Either E B :=
  match x with Left e => Left e | Right a => Right (f a) end.

Definition mapLeft {E F A} (f : E -> F) (x : Either E A) : Either F A :=
  match x with Left e => Left (f e) | Right a => Right a end.

Definition getOrElse {E A} (onLeft : E -> A) (x : Either E A) : A :=
  match x with Left e => onLeft e | Right a => a end.

(** A value raised by [throw] or carried by a rejected promise: an
    [Error] instance, or anything else, of which only [String(e)] is
    observed. *)
Inductive Thrown :=
| ThrownError (e : Error)
| ThrownOther (rendering : string).

(** fp-ts [toError]: [e instanceof Error ? e : new Error(String(e))]. *)
Definition toError (e : Thrown) : Error :=
  match e with
  | ThrownError err => err
  | ThrownOther s => mkError s
  end.

(** The settled value of a promise-returning call. *)
Inductive Settled (A : Type) : Type :=
| Rejects (e : Thrown)
| Resolves (a : A).
Arguments Rejects {A} e.
Arguments Resolves {A} a.

(** fp-ts [TaskEither.tryCatch f onRejected], run. *)
Definition tryCatch {E A} (f : Settled A) (onRejected : Thrown -> E)
  : Either E A :=
  match f with
  | Rejects e => Left (onRejected e)
  | Resolves a => Right a
  end.

(** A synchronous call either throws or returns a value. *)
Inductive Outcome (A : Type) : Type :=
| Throw (e : Error)
| Return (a : A).
Arguments Throw {A} e.
Arguments Return {A} a.

Definition chain {E A B} (k : A -> Either E B) (x : Either E A)
  : Either E B :=
  match x with Left e => Left e | Right a => k a end.

(** fp-ts [Option.fromNullable] on an optional argument: [undefined]
    is [None]; every string, the empty one included, is [Some]. *)
Definition fromNullable {A} (x : option A) : option A := x.

(** JavaScript truthiness of an optional string: [undefined] and the
    empty string are falsy. *)
Definition truthy (x : option string) : bool :=
  match x with
  | None => false
  | Some EmptyString => false
  | Some (String _ _) => true
  end.

(** [String.prototype.toLowerCase], on the ASCII letters. *)
Definition lower (c : ascii) : ascii :=
  let n := nat_of_ascii c in
  if (65 <=? n)%nat && (n <=? 90)%nat then ascii_of_nat (n + 32) else c.

Fixpoint toLowerCase (s : string) : string :=
  match s with
  | EmptyString => EmptyString
  | String c s' => String (lower c) (toLowerCase s')
  end.

(** [String.prototype.substr(0, n)]. *)
Definition substr0 (n : nat) (s : string) : string := String.substring 0 n s.

End Js.
Import Js.

(** ** utils/errors.ts: the failure classifier *)

Module Errors.

Inductive FailureKind := TRANSIENT | PERMANENT.

(** [Failure = t.union([TransientFailure, PermanentFailure])], both
    interfaces being [{kind, reason}] with a literal [kind]. *)
Record Failure := mkFailure { kind : FailureKind; reason : string }.

Definition TransientFailure_is (f : Failure) : bool :=
  match kind f with TRANSIENT => true | PERMANENT => false end.

Definition PermanentFailure_is (f : Failure) : bool :=
  match kind f with PERMANENT => true | TRANSIENT => false end.

Definition kind_toString (k : FailureKind) : string :=
  match k with TRANSIENT => "TRANSIENT" | PERMANENT => "PERMANENT" end.

Definition bool_toString (b : bool) : string :=
  if b then "true" else "false".

(** The message built by both classifiers before the prefix is put. *)
Definition errorMsg (err : Error) (customReason : option string) : string :=
  match fromNullable customReason with
  | Some reason => "ERROR=" +:+ reason +:+ " DETAIL=" +:+ message err
  | None => "ERROR=" +:+ message err
  end.

Definition toTransientFailure (err : Error) (customReason : option string)
  : Failure :=
  {| kind := TRANSIENT;
     reason := "TRANSIENT FAILURE|" +:+ errorMsg err customReason |}.

Definition toPermanentFailure (err : Error) (customReason : option string)
  : Failure :=
  {| kind := PERMANENT;
     reason := "PERMANENT FAILURE|" +:+ errorMsg err customReason |}.

(** [ActivityResult]: [{kind: "SUCCESS"}] or [{kind: "FAILURE", reason}]. *)
Inductive ActivityResult :=
| SUCCESS
| FAILURE (reason : string).

(** What [trackFailure] does besides deciding: one telemetry record and
    one error log line. *)
Record Telemetry := mkTelemetry {
  exception : Error;
  detail : string;
  fatal : string;
  isSuccess : bool;
  name : string
}.

Inductive Effect :=
| TrackException (t : Telemetry)
| LogError (line : string).

Definition trackFailure (logPrefix : string) (err : Failure)
  : list Effect * Outcome ActivityResult :=
  let error :=
    if TransientFailure_is err
    then logPrefix +:+ "|TRANSIENT_ERROR=" +:+ reason err
    else logPrefix +:+ "|FATAL|PERMANENT_ERROR=" +:+ reason err in
  let effects :=
    [ TrackException
        {| exception := mkError error;
           detail := kind_toString (kind err);
           fatal := bool_toString (PermanentFailure_is err);
           isSuccess := false;
           name := "cgn.exception.upsertSpecialService.failure" |};
      LogError error ] in
  if TransientFailure_is err
  then (effects, Throw (mkError (reason err)))
  else (effects, Return (FAILURE (reason err))).

End Errors.

(** ** generated/definitions: card statuses and requests *)

Module Definitions.

Definition FiscalCode := string.
Definition Date := Z.

(** The values of the generated [StatusEnum]s that the handlers pass
    as the target of an orchestration. *)
Inductive StatusEnum := ACTIVATED | REVOKED | EXPIRED.

(** The card status carried by an orchestration input. *)
Inductive CgnStatus :=
| CgnPendingStatus
| CgnActivatedStatus (activation_date expiration_date : Date)
| CgnRevokedStatus (revocation_date : Date) (revocation_reason : option string)
| CgnExpiredStatus.

Record OrchestratorInput := mkOrchestratorInput {
  fiscalCode : FiscalCode;
  newStatus : CgnStatus
}.

Record UserCgn := mkUserCgn {
  userFiscalCode : FiscalCode;
  userStatus : CgnStatus
}.

Inductive ActionEnum := ACTIVATE | REVOKE.

(** [CgnStatusUpsertRequest]: [{action, revocation_reason?}]. *)
Record CgnStatusUpsertRequest := mkUpsertRequest {
  action : ActionEnum;
  revocation_reason : option string
}.

(** Modelled from the spec: the generated io-ts codec
    [CgnStatusRevocationRequest] is missing from the sources.  Spec §4.3
    and §6: a revocation request has [action == "REVOKE"] and carries the
    [revocation_reason], which is required for that action. *)
Definition CgnStatusRevocationRequest_is (r : CgnStatusUpsertRequest) : bool :=
  match action r, revocation_reason r with
  | REVOKE, Some _ => true
  | _, _ => false
  end.

End Definitions.
Import Definitions.

(** ** The workflow host, as the handlers see it *)

Module Host.

Inductive LogLevel := Verbose | Info | Error.

(** [df.OrchestrationRuntimeStatus] of the durable-functions library. *)
Inductive OrchestrationRuntimeStatus :=
| Running | Completed | ContinuedAsNew | Failed | Canceled | Terminated
| Pending.

Definition runtimeStatus_eqb (a b : OrchestrationRuntimeStatus) : bool :=
  match a, b with
  | Running, Running | Completed, Completed
  | ContinuedAsNew, ContinuedAsNew | Failed, Failed
  | Canceled, Canceled | Terminated, Terminated | Pending, Pending => true
  | _, _ => false
  end.

(** [DurableOrchestrationStatus], with the fields of it that are strings
    or enumerations. *)
Record DurableOrchestrationStatus := mkStatus {
  name : string;
  instanceId : string;
  runtimeStatus : OrchestrationRuntimeStatus
}.

(** The answers of a [DurableOrchestrationClient]. *)
Record DurableOrchestrationClient := mkClient {
  getStatus : string -> Settled DurableOrchestrationStatus;
  startNew : string -> string -> OrchestratorInput -> Settled string;
  terminate : string -> string -> Settled unit
}.

(** The calls a handler makes, in the order it makes them. *)
Inductive Event :=
| GetExpiredCgnUsers (tableName today : string)
| GetClient
| GetStatus (instanceId : string)
| Terminate (instanceId reason : string)
| StartNew (orchestratorName instanceId : string) (input : OrchestratorInput)
| FindLastVersionByModelId (fiscalCode : FiscalCode)
| CheckUpdateCgnIsRunning (fiscalCode : FiscalCode) (cgnStatus : CgnStatus)
| FindAll (fiscalCode : FiscalCode)
| DeleteVersion (callIndex : nat)
| Log (level : LogLevel) (line : string).

(** A computation that records its calls. *)
Definition M (A : Type) : Type := list Event * A.

Definition ret {A} (a : A) : M A := ([], a).

Definition bind {A B} (m : M A) (k : A -> M B) : M B :=
  let (e1, a) := m in
  let (e2, b) := k a in
  ((e1 ++ e2)%list, b).

Definition emit (e : Event) : M unit := ([e], tt).

Definition call {A} (e : Event) (answer : A) : M A := ([e], answer).

Definition events {A} (m : M A) : list Event := fst m.
Definition result {A} (m : M A) : A := snd m.

End Host.
Import Host.

Notation "x <- c1 ;; c2" := (Host.bind c1 (fun x => c2))
  (at level 100, c1 at next level, right associativity).
Notation "c1 ;;; c2" := (Host.bind c1 (fun _ => c2))
  (at level 100, right associativity).

(** ** utils/orchestrators.ts *)

Module Orchestrators.

Definition makeRevokeCgnOrchestratorId (fiscalCode : FiscalCode) : string :=
  fiscalCode +:+ "-REVOKE".

(** Modelled from the spec: [makeUpdateCgnOrchestratorId], which both
    handlers import from utils/orchestrators.ts, is missing from the
    sources.  Spec §4.2 and §6: the REVOKE and the EXPIRE target map to
    the same id ["{userId}-REVOKE"], the one [makeRevokeCgnOrchestratorId]
    builds; ACTIVATE maps to a separate namespace, written
    ["{U2}-ACTIVATE"] in §8. *)
Definition makeUpdateCgnOrchestratorId
  (fiscalCode : FiscalCode) (cgnStatus : StatusEnum) : string :=
  match cgnStatus with
  | ACTIVATED => fiscalCode +:+ "-ACTIVATE"
  | REVOKED | EXPIRED => makeRevokeCgnOrchestratorId fiscalCode
  end.

(** The status returned by [getStatus], augmented with [isRunning]. *)
Record StatusWithIsRunning := mkWithIsRunning {
  status : DurableOrchestrationStatus;
  isRunning : bool
}.

Definition isOrchestratorRunning
  (client : DurableOrchestrationClient) (orchestratorId : string)
  : M (Either Js.Error StatusWithIsRunning) :=
  r <- call (GetStatus orchestratorId)
         (tryCatch (getStatus client orchestratorId) toError) ;;
  ret (Js.map
         (fun status =>
            {| status := status;
               isRunning :=
                 runtimeStatus_eqb (runtimeStatus status) Running
                 || runtimeStatus_eqb (runtimeStatus status) Pending |})
         r).

(** Modelled from the spec: [terminateOrchestratorTask], imported by the
    sweep from utils/orchestrators.ts, is missing from the sources.
    Spec §4.2: [terminate(instanceId, reason) -> Result<void, Error>] on
    the instance of the user in the namespace of the given status. *)
Definition terminateOrchestratorTask
  (client : DurableOrchestrationClient) (fiscalCode : FiscalCode)
  (cgnStatus : StatusEnum) (reason : string) : M (Either Js.Error unit) :=
  let id := makeUpdateCgnOrchestratorId fiscalCode cgnStatus in
  call (Terminate id reason) (tryCatch (terminate client id reason) toError).

End Orchestrators.
Import Orchestrators.

(** ** UpdateExpiredCgn/handler.ts: the daily sweep *)

Module UpdateExpiredCgn.

Definition ORCHESTRATION_TERMINATION_REASON : string :=
  "An highest priority CGN update orchestrator needs to start".

(** What the handler is given: the answer of the expiration table to
    [getExpiredCgnUsers], the client [df.getClient] returns, and the
    date [date_fns.format(Date.now(), "yyyy-MM-dd")]. *)
Record Env := mkEnv {
  today : string;
  getExpiredCgnUsers : string -> string -> Either Js.Error (list FiscalCode);
  client : DurableOrchestrationClient
}.

(** The callback given to [expiredCgnUsers.forEach]. *)
Definition forEachUser (env : Env) (logPrefix : string)
  (fiscalCode : FiscalCode) : M unit :=
  _ <- terminateOrchestratorTask (client env) fiscalCode ACTIVATED
         ORCHESTRATION_TERMINATION_REASON ;;
  _ <- terminateOrchestratorTask (client env) fiscalCode REVOKED
         ORCHESTRATION_TERMINATION_REASON ;;
  emit (Log Info
          (logPrefix +:+ "| Starting new expire orchestrator for fiscalCode="
           +:+ substr0 6 fiscalCode)) ;;;
  let id := makeUpdateCgnOrchestratorId fiscalCode EXPIRED in
  let input :=
    {| fiscalCode := fiscalCode; newStatus := CgnExpiredStatus |} in
  started <- call (StartNew "UpdateCgnOrchestrator" id input)
               (tryCatch
                  (startNew (client env) "UpdateCgnOrchestrator" id input)
                  toError) ;;
  match started with
  | Left err =>
      emit (Log Error
              (logPrefix +:+ "|Error while starting CGN expiration for fiscalCode="
               +:+ substr0 6 fiscalCode +:+ "|ERROR=" +:+ message err))
  | Right _ => ret tt
  end.

(** One run of the handler.  [forEach] does not await its callbacks:
    the handler's own calls are [main]; the calls of each callback are
    kept apart, one list per user in the order the callbacks were
    launched, each in its own order.  How the host interleaves the
    callbacks of different users is not fixed by the code. *)
Record Run := mkRun {
  main : list Event;
  perUser : list (FiscalCode * list Event)
}.

Definition getUpdateExpiredCgnHandler
  (env : Env) (cgnExpirationTableName : string) (logPrefix : string) : Run :=
  match getExpiredCgnUsers env cgnExpirationTableName (today env) with
  | Left err =>
      {| main :=
           [ GetExpiredCgnUsers cgnExpirationTableName (today env);
             Log Verbose (logPrefix +:+ "|ERROR=" +:+ message err) ];
         perUser := [] |}
  | Right expiredCgnUsers =>
      {| main :=
           [ GetExpiredCgnUsers cgnExpirationTableName (today env);
             Log Info
               (logPrefix +:+ "|Processing "
                +:+ pretty (length expiredCgnUsers) +:+ " expired CGNs");
             GetClient ];
         perUser :=
           List.map
             (fun fiscalCode =>
                (fiscalCode, events (forEachUser env logPrefix fiscalCode)))
             expiredCgnUsers |}
  end.

(** Every call of one run, whoever made it. *)
Definition allEvents (r : Run) : list Event :=
  (main r ++ List.concat (List.map snd (perUser r)))%list.

Definition isOrchestrationEffect (e : Event) : bool :=
  match e with
  | Terminate _ _ | StartNew _ _ _ | GetStatus _ | GetClient => true
  | _ => false
  end.

End UpdateExpiredCgn.

(** ** fp-ts [TaskEither], run: the [Either] and the calls made for it *)

Module TaskEither.

Definition TaskEither (E A : Type) : Type := M (Either E A).

Definition of_ {E A} (a : A) : TaskEither E A := ret (Right a).
Definition fromLeft {E A} (e : E) : TaskEither E A := ret (Left e).
Definition fromEither {E A} (x : Either E A) : TaskEither E A := ret x.

Definition fromPredicate {E A} (p : A -> bool) (onFalse : A -> E) (a : A)
  : TaskEither E A :=
  if p a then of_ a else fromLeft (onFalse a).

Definition fromOption {E A} (onNone : E) (x : option A) : Either E A :=
  match x with Some a => Right a | None => Left onNone end.

Definition chain {E A B} (m : TaskEither E A) (k : A -> TaskEither E B)
  : TaskEither E B :=
  x <- m ;;
  match x with
  | Left e => ret (Left e)
  | Right a => k a
  end.

Definition map {E A B} (f : A -> B) (m : TaskEither E A) : TaskEither E B :=
  x <- m ;; ret (Js.map f x).

(** [bimap], with the left function free to log. *)
Definition bimap {E F A B} (f : E -> M F) (g : A -> B) (m : TaskEither E A)
  : TaskEither F B :=
  x <- m ;;
  match x with
  | Left e => e' <- f e ;; ret (Left e')
  | Right a => ret (Right (g a))
  end.

Definition foldTaskEither {E F A B}
  (onLeft : E -> TaskEither F B) (onRight : A -> TaskEither F B)
  (m : TaskEither E A) : TaskEither F B :=
  x <- m ;;
  match x with
  | Left e => onLeft e
  | Right a => onRight a
  end.

Definition fold {E A R} (onLeft : E -> R) (onRight : A -> R)
  (m : TaskEither E A) : M R :=
  x <- m ;;
  ret (match x with Left e => onLeft e | Right a => onRight a end).

End TaskEither.

(** ** UpsertCgnStatus/handler.ts *)

Module UpsertCgnStatus.

Import TaskEither.

Record InstanceId := mkInstanceId { id : string }.

(** The responses of italia-ts-commons the handler can return. *)
Inductive Response :=
| ResponseErrorForbiddenNotAuthorized
| ResponseErrorInternal (detail : string)
| ResponseErrorNotFound (title detail : string)
| ResponseErrorConflict (detail : string)
| ResponseSuccessAccepted
| ResponseSuccessRedirectToResource
    (resource : InstanceId) (url : string) (payload : InstanceId).

(** [response.kind === "IResponseSuccessAccepted"]. *)
Definition isResponseSuccessAccepted (r : Response) : bool :=
  match r with ResponseSuccessAccepted => true | _ => false end.

Definition toCgnStatus (now : Date) (cgnStatusUpsertRequest : CgnStatusUpsertRequest)
  : CgnStatus :=
  match action cgnStatusUpsertRequest with
  | REVOKE =>
      CgnRevokedStatus now (revocation_reason cgnStatusUpsertRequest)
  | _ => CgnPendingStatus
  end.

(** What the handler is given: the clock read by [new Date()], the
    answer of the document store, the answer of
    [checkUpdateCgnIsRunning] (imported from utils/orchestrators.ts,
    not in the sources: a [Left] carries the response to give back), and
    the client [df.getClient] returns. *)
Record Env := mkEnv {
  now : Date;
  findLastVersionByModelId : FiscalCode -> Either string (option UserCgn);
  checkUpdateCgnIsRunning : FiscalCode -> CgnStatus -> Either Response unit;
  client : DurableOrchestrationClient
}.

Section WithCodec.

(** The codec [CgnStatusRevocationRequest.is] of the generated
    definitions, not in the sources: the handler is stated for any
    codec, [Definitions.CgnStatusRevocationRequest_is] being the one
    the spec describes. *)
Variable CgnStatusRevocationRequest_is : CgnStatusUpsertRequest -> bool.

Definition UpsertCgnStatusHandler (env : Env) (logPrefix : string)
  (fiscalCode : FiscalCode) (cgnStatusUpsertRequest : CgnStatusUpsertRequest)
  : M Response :=
  emit GetClient ;;;
  let orchestratorId := makeUpdateCgnOrchestratorId fiscalCode REVOKED in
  fold (fun r => r) (fun r => r)
    (foldTaskEither fromLeft
       (fun cgnStatus =>
          foldTaskEither
            (fun response : Response =>
               if isResponseSuccessAccepted response
               then of_ response
               else fromLeft response)
            (fun _ : unit =>
               let input :=
                 {| fiscalCode := fiscalCode; newStatus := cgnStatus |} in
               bimap
                 (fun err : Js.Error =>
                    emit (Log Error
                            (logPrefix
                             +:+ "|Cannot start UpdateCgnOrchestrator|ERROR="
                             +:+ message err)) ;;;
                    ret (ResponseErrorInternal
                           "Cannot start UpdateCgnOrchestrator"))
                 (fun _ : string =>
                    let instanceId := {| id := orchestratorId |} in
                    ResponseSuccessRedirectToResource instanceId
                      ("/api/v1/cgn/status/" +:+ fiscalCode) instanceId)
                 (call (StartNew "UpdateCgnOrchestrator" orchestratorId input)
                    (tryCatch
                       (startNew (client env) "UpdateCgnOrchestrator"
                          orchestratorId input)
                       toError)))
            (call (CheckUpdateCgnIsRunning fiscalCode cgnStatus)
               (checkUpdateCgnIsRunning env fiscalCode cgnStatus)))
       (chain
          (chain
             (fromPredicate CgnStatusRevocationRequest_is
                (fun _ => ResponseErrorForbiddenNotAuthorized)
                cgnStatusUpsertRequest)
             (fun request =>
                bimap
                  (fun _ : string =>
                     ret (ResponseErrorInternal
                            "Cannot retrieve CGN infos for this user"))
                  (fun maybeUserCgn =>
                     (maybeUserCgn, toCgnStatus (now env) request))
                  (call (FindLastVersionByModelId fiscalCode)
                     (findLastVersionByModelId env fiscalCode))))
          (fun '(maybeUserCgn, cgnStatus) =>
             map (fun _ : UserCgn => cgnStatus)
               (fromEither
                  (fromOption
                     (ResponseErrorNotFound "Not Found"
                        "User's CGN status not found")
                     maybeUserCgn))))).

End WithCodec.

(** The orchestrations a run of the handler started. *)
Fixpoint startedInputs (es : list Event) : list OrchestratorInput :=
  match es with
  | [] => []
  | StartNew _ _ input :: es' => input :: startedInputs es'
  | _ :: es' => startedInputs es'
  end.

End UpsertCgnStatus.

(** ** utils/redis_storage.ts *)

Module RedisStorage.

(** What [redisClient.set(key, value, "EX", seconds, callback)] does:
    it throws, or it calls back with [(err, reply)], where [err] is
    [null] or an [Error] and [reply] is [undefined] or a string. *)
Inductive SetAnswer :=
| SetThrows (e : Thrown)
| SetCallsBack (err : option Js.Error) (reply : option string).

Record RedisClient := mkRedisClient {
  set : string -> string -> string -> Z -> SetAnswer
}.

Definition singleStringReply (err : option Js.Error) (reply : option string)
  : Either Js.Error bool :=
  match err with
  | Some e => Left e
  | None =>
      Right (match reply with
             | Some r => String.eqb r "OK"
             | None => false
             end)
  end.

Definition falsyResponseToError (response : Either Js.Error bool)
  (error : Js.Error) : Either Js.Error bool :=
  match response with
  | Left e => Left e
  | Right r => if r then Right true else Left error
  end.

Definition defaultSetErrorMsg : string :=
  "Error setting key value pair on redis".

Definition setWithExpirationTask (redisClient : RedisClient)
  (key value : string) (expirationInSeconds : Z) (errorMsg : option string)
  : Either Js.Error bool :=
  Js.chain (fun x => x)
    (tryCatch
       (match set redisClient key value "EX" expirationInSeconds with
        | SetThrows e => Rejects e
        | SetCallsBack err response =>
            Resolves
              (falsyResponseToError
                 (singleStringReply err response)
                 (mkError
                    (if truthy errorMsg
                     then default defaultSetErrorMsg errorMsg
                     else defaultSetErrorMsg)))
        end)
       toError).

(** The reply of a command as the callback of [integerRepl] gets it,
    typed [unknown]: [null], a string, or a number (Redis integers). *)
Inductive Reply :=
| ReplyNull
| ReplyString (s : string)
| ReplyNumber (n : Z).

(** What [redisClient.get(key, callback)] and
    [redisClient.exists(key, callback)] do: they throw, or call back with
    [(err, reply)]. *)
Inductive CallbackAnswer (R : Type) : Type :=
| Throws (e : Thrown)
| CallsBack (err : option Js.Error) (reply : R).
Arguments Throws {R} e.
Arguments CallsBack {R} err reply.

(** The two reading methods of the client. *)
Record RedisReads := mkRedisReads {
  get : string -> CallbackAnswer (option string);
  exists_ : string -> CallbackAnswer Reply
}.

Definition singleValueReply (err : option Js.Error) (reply : option string)
  : Either Js.Error (option string) :=
  match err with
  | Some e => Left e
  | None => Right (fromNullable reply)
  end.

(** [expectedReply !== reply], for a number [expectedReply]. *)
Definition strictlyDiffers (expectedReply : Z) (reply : Reply) : bool :=
  match reply with
  | ReplyNumber n => negb (expectedReply =? n)%Z
  | _ => true
  end.

(** [typeof reply === "number"]. *)
Definition isNumber (reply : Reply) : bool :=
  match reply with ReplyNumber _ => true | _ => false end.

Definition integerRepl (err : option Js.Error) (reply : Reply)
  (expectedReply : option Z) : Either Js.Error bool :=
  match err with
  | Some e => Left e
  | None =>
      match expectedReply with
      | Some expected =>
          if strictlyDiffers expected reply
          then Right false
          else Right (isNumber reply)
      | None => Right (isNumber reply)
      end
  end.

Definition getTask (redisClient : RedisReads) (key : string)
  : Either Js.Error (option string) :=
  Js.chain (fun x => x)
    (tryCatch
       (match get redisClient key with
        | Throws e => Rejects e
        | CallsBack err response => Resolves (singleValueReply err response)
        end)
       toError).

Definition existsKeyTask (redisClient : RedisReads) (key : string)
  : Either Js.Error bool :=
  Js.chain (fun x => x)
    (tryCatch
       (match exists_ redisClient key with
        | Throws e => Rejects e
        | CallsBack err response =>
            Resolves (integerRepl err response (Some 1%Z))
        end)
       toError).

End RedisStorage.

(** ** utils/config.ts *)

Module Config.

(** The values found in the object given to [IConfig.decode]. *)
Inductive JsValue :=
| VString (s : string)
| VNumber (n : Z)
| VBoolean (b : bool).

Definition DEFAULT_CGN_UPPER_BOUND_AGE : Z := 36.
Definition DEFAULT_EYCA_UPPER_BOUND_AGE : Z := 31.

(** A validated configuration: [NonEmptyString] fields are strings,
    [NonNegativeInteger] fields integers, the fields of [t.partial]
    optional. *)
Record IConfig := mkIConfig {
  APPINSIGHTS_INSTRUMENTATIONKEY : string;
  CGN_EXPIRATION_TABLE_NAME : string;
  EYCA_EXPIRATION_TABLE_NAME : string;
  CGN_UPPER_BOUND_AGE : Z;
  EYCA_UPPER_BOUND_AGE : Z;
  COSMOSDB_CGN_DATABASE_NAME : string;
  COSMOSDB_CGN_KEY : string;
  COSMOSDB_CGN_URI : string;
  AzureWebJobsStorage : string;
  CGN_STORAGE_CONNECTION_STRING : string;
  EYCA_API_BASE_URL : string;
  EYCA_API_PASSWORD : string;
  EYCA_API_USERNAME : string;
  OTP_TTL_IN_SECONDS : Z;
  isProduction : bool;
  REDIS_URL : string;
  REDIS_CLUSTER_ENABLED : option bool;
  REDIS_PASSWORD : option string;
  REDIS_PORT : option string;
  REDIS_TLS_ENABLED : option bool
}.

(** io-ts [Validation]: the errors are kept as the keys that failed. *)
Definition Validation (A : Type) : Type := Either (list string) A.

Definition errorsOf {A} (v : Validation A) : list string :=
  match v with Left es => es | Right _ => [] end.

(** Validations are combined keeping every error, in order. *)
Definition ap {A B} (f : Validation (A -> B)) (x : Validation A)
  : Validation B :=
  match f, x with
  | Right g, Right a => Right (g a)
  | Right _, Left es => Left es
  | Left es, Right _ => Left es
  | Left es1, Left es2 => Left (es1 ++ es2)%list
  end.

Definition NonEmptyString_is (v : JsValue) : option string :=
  match v with
  | VString (String c s) => Some (String c s)
  | _ => None
  end.

Definition NonNegativeInteger_is (v : JsValue) : option Z :=
  match v with
  | VNumber n => if (0 <=? n)%Z then Some n else None
  | _ => None
  end.

Definition boolean_is (v : JsValue) : option bool :=
  match v with
  | VBoolean b => Some b
  | _ => None
  end.

(** A property of [t.interface]. *)
Definition required {A} (o : gmap string JsValue) (key : string)
  (codec : JsValue -> option A) : Validation A :=
  match o !! key ≫= codec with
  | Some a => Right a
  | None => Left [key]
  end.

(** A property of [t.partial]: absent, or valid. *)
Definition optional {A} (o : gmap string JsValue) (key : string)
  (codec : JsValue -> option A) : Validation (option A) :=
  match o !! key with
  | None => Right None
  | Some v =>
      match codec v with
      | Some a => Right (Some a)
      | None => Left [key]
      end
  end.

Definition IConfig_decode (o : gmap string JsValue) : Validation IConfig :=
  ap (ap (ap (ap (ap (ap (ap (ap (ap (ap (ap (ap (ap (ap (ap (ap (ap (ap
  (ap (ap (Right mkIConfig)
    (required o "APPINSIGHTS_INSTRUMENTATIONKEY" NonEmptyString_is))
    (required o "CGN_EXPIRATION_TABLE_NAME" NonEmptyString_is))
    (required o "EYCA_EXPIRATION_TABLE_NAME" NonEmptyString_is))
    (required o "CGN_UPPER_BOUND_AGE" NonNegativeInteger_is))
    (required o "EYCA_UPPER_BOUND_AGE" NonNegativeInteger_is))
    (required o "COSMOSDB_CGN_DATABASE_NAME" NonEmptyString_is))
    (required o "COSMOSDB_CGN_KEY" NonEmptyString_is))
    (required o "COSMOSDB_CGN_URI" NonEmptyString_is))
    (required o "AzureWebJobsStorage" NonEmptyString_is))
    (required o "CGN_STORAGE_CONNECTION_STRING" NonEmptyString_is))
    (required o "EYCA_API_BASE_URL" NonEmptyString_is))
    (required o "EYCA_API_PASSWORD" NonEmptyString_is))
    (required o "EYCA_API_USERNAME" NonEmptyString_is))
    (required o "OTP_TTL_IN_SECONDS" NonNegativeInteger_is))
    (required o "isProduction" boolean_is))
    (required o "REDIS_URL" NonEmptyString_is))
    (optional o "REDIS_CLUSTER_ENABLED" boolean_is))
    (optional o "REDIS_PASSWORD" NonEmptyString_is))
    (optional o "REDIS_PORT" NonEmptyString_is))
    (optional o "REDIS_TLS_ENABLED" boolean_is).

(** [{...o, [key]: v}]: a property set to [undefined] reads as absent. *)
Definition setProp (key : string) (v : option JsValue)
  (o : gmap string JsValue) : gmap string JsValue :=
  match v with
  | Some x => <[key := x]> o
  | None => delete key o
  end.

(** The properties of [IConfig] by codec: the required
    [NonEmptyString]s, the [NonNegativeInteger]s, and the optional
    [NonEmptyString]s of [RedisParams]. *)
Definition requiredStrings : list string :=
  [ "APPINSIGHTS_INSTRUMENTATIONKEY"; "CGN_EXPIRATION_TABLE_NAME";
    "EYCA_EXPIRATION_TABLE_NAME"; "COSMOSDB_CGN_DATABASE_NAME";
    "COSMOSDB_CGN_KEY"; "COSMOSDB_CGN_URI"; "AzureWebJobsStorage";
    "CGN_STORAGE_CONNECTION_STRING"; "EYCA_API_BASE_URL";
    "EYCA_API_PASSWORD"; "EYCA_API_USERNAME"; "REDIS_URL" ].

Definition numericKeys : list string :=
  [ "CGN_UPPER_BOUND_AGE"; "EYCA_UPPER_BOUND_AGE"; "OTP_TTL_IN_SECONDS" ].

Definition optionalStrings : list string :=
  [ "REDIS_PASSWORD"; "REDIS_PORT" ].

Section WithLibraries.

(** Two functions of the libraries the module calls: the conversion
    [+s] of a string to a number, kept when the number is an integer
    ([IntegerFromString] of ts-commons), and [readableReport]. *)
Variable stringToInteger : string -> option Z.
Variable readableReport : list string -> string.

(** [IntegerFromString.decode] on [process.env.KEY]: a missing
    variable is [undefined], which is not a string. *)
Definition IntegerFromString_decode (u : option string) : Validation Z :=
  match u with
  | None => Left ["undefined"]
  | Some s =>
      match stringToInteger s with
      | Some n => Right n
      | None => Left [s]
      end
  end.

(** A variable that is missing, or whose text is not an integer. *)
Definition notAnInteger (u : option string) : Prop :=
  match u with
  | None => True
  | Some s => stringToInteger s = None
  end.

Definition integerOr (dflt : Z) (u : option string) : JsValue :=
  VNumber
    (getOrElse (fun _ => dflt)
       (Js.map (fun n : Z => n) (IntegerFromString_decode u))).

Definition booleanFlag (u : option string) : option JsValue :=
  (fun s => VBoolean (String.eqb (toLowerCase s) "true"))
    <$> fromNullable u.

(** The object literal given to [IConfig.decode]: [process.env]
    spread, then the computed properties in the order written. *)
Definition rawConfig (env : gmap string string) : gmap string JsValue :=
  setProp "isProduction"
    (Some (VBoolean
             (match env !! "NODE_ENV" with
              | Some s => String.eqb s "production"
              | None => false
              end)))
  (setProp "REDIS_TLS_ENABLED" (booleanFlag (env !! "REDIS_TLS_ENABLED"))
  (setProp "REDIS_CLUSTER_ENABLED"
     (booleanFlag (env !! "REDIS_CLUSTER_ENABLED"))
  (setProp "OTP_TTL_IN_SECONDS"
     (Some (integerOr 600 (env !! "OTP_TTL_IN_SECONDS")))
  (setProp "EYCA_UPPER_BOUND_AGE"
     (Some (integerOr DEFAULT_EYCA_UPPER_BOUND_AGE
              (env !! "EYCA_UPPER_BOUND_AGE")))
  (setProp "CGN_UPPER_BOUND_AGE"
     (Some (integerOr DEFAULT_CGN_UPPER_BOUND_AGE
              (env !! "CGN_UPPER_BOUND_AGE")))
  (VString <$> env)))))).

Definition errorOrConfig (env : gmap string string) : Validation IConfig :=
  IConfig_decode (rawConfig env).

Definition getConfig (env : gmap string string) : Validation IConfig :=
  errorOrConfig env.

Definition getConfigOrThrow (env : gmap string string) : Outcome IConfig :=
  match errorOrConfig env with
  | Left errors =>
      Throw (mkError ("Invalid configuration: " +:+ readableReport errors))
  | Right config => Return config
  end.

End WithLibraries.

End Config.

(** ** DeleteEycaActivity: delete all versions of a user's EYCA card *)

Module DeleteEycaActivity.

Import Errors.

Definition isDeleteVersion (e : Event) : bool :=
  match e with DeleteVersion _ => true | _ => false end.

Definition isFindAll (e : Event) : bool :=
  match e with FindAll _ => true | _ => false end.

(** The number of recorded calls of one kind. *)
Definition calledTimes (which : Event -> bool) (es : list Event) : nat :=
  length (List.filter which es).

Section Handler.

(** The handler does not look into the records it deletes. *)
Variable Card : Type.

(** The model of the user's cards, as the handler sees it.
    [deleteVersion i c] is the outcome of the delete number [i] (from 0)
    that the handler attempts, on record [c]. *)
Record UserEycaCardModel := mkModel {
  findAll : FiscalCode -> Either Js.Error (list Card);
  deleteVersion : nat -> Card -> Either Js.Error string
}.

(** The loop over the records, one [DeleteVersion] event per delete
    attempted: the first delete that fails aborts the loop. *)
Fixpoint deleteUntilFailure (model : UserEycaCardModel) (i : nat)
  (cards : list Card) : M (Either Js.Error unit) :=
  match cards with
  | [] => ret (Right tt)
  | c :: cards' =>
      r <- call (DeleteVersion i) (deleteVersion model i c) ;;
      match r with
      | Left e => ret (Left e)
      | Right _ => deleteUntilFailure model (S i) cards'
      end
  end.

(** Modelled from the spec: [getDeleteEycaActivityHandler]
    (DeleteEycaActivity/handler.ts) is missing from the sources; only
    its test is there.  Spec §4.5 and §8: the input is decoded, a
    malformed one is a failure; all the records of the user are listed
    with [findAll], whose failure is the result [FAILURE] with the message
    of the error, no delete being attempted; the records are deleted one
    after the other, the first delete failure aborts the loop and gives
    [FAILURE] with the message of that delete; when every delete succeeds
    the result is [SUCCESS]. *)
Definition getDeleteEycaActivityHandler (model : UserEycaCardModel)
  (input : Either Js.Error FiscalCode) : M ActivityResult :=
  match input with
  | Left e => ret (FAILURE (message e))
  | Right fiscalCode =>
      found <- call (FindAll fiscalCode) (findAll model fiscalCode) ;;
      match found with
      | Left e => ret (FAILURE (message e))
      | Right cards =>
          r <- deleteUntilFailure model 0 cards ;;
          match r with
          | Left e => ret (FAILURE (message e))
          | Right _ => ret SUCCESS
          end
      end
  end.

(** The outcomes of the deletes of [cards], were all attempted in order. *)
Definition deleteAnswers (model : UserEycaCardModel) (cards : list Card)
  : list (Either Js.Error string) :=
  imap (fun i c => deleteVersion model i c) cards.

End Handler.

Arguments findAll {Card} _ _.
Arguments deleteVersion {Card} _ _ _.
Arguments mkModel {Card} _ _.
Arguments getDeleteEycaActivityHandler {Card} _ _.
Arguments deleteUntilFailure {Card} _ _ _.
Arguments deleteAnswers {Card} _ _.

(** *** The models of DeleteEycaActivity/__tests__/handler.test.ts

    The tests also count, with [toBeCalledTimes], how often the mocked
    functions were invoked.  A mocked [deleteVersion] returns a task and
    deletes nothing, so its count is that of the tasks built; the events
    recorded here, one per delete attempted, do not give it.  The models
    of the tests are used for the results they fix. *)

Module Tests.

(** The two elements the test puts in the result of [findAll]: the
    revoked card, and the array of results itself. *)
Inductive TestCard := aUserCardRevoked | anArrayOfCardResultsItself.

Definition aFiscalCode : FiscalCode := "RODFDS82S10H501T".

Definition anArrayOfCardResults : list TestCard := [aUserCardRevoked].

(** A [jest.fn()] with [mockImplementation] and a queue of
    [mockImplementationOnce]: the answer number [i]. *)
Definition mockAnswer {A} (once : list A) (implementation : A) (i : nat) : A :=
  nth i once implementation.

Definition userEycaModelMock
  (findAllOnce : list (Either Js.Error (list TestCard)))
  (deleteVersionOnce : list (Either Js.Error string))
  : UserEycaCardModel TestCard :=
  mkModel
    (fun _ => mockAnswer findAllOnce (Right anArrayOfCardResults) 0)
    (fun i _ => mockAnswer deleteVersionOnce (Right "id") i).

(** "should return failure if an error occurs during findAll" *)
Definition findAllFailureMock : UserEycaCardModel TestCard :=
  userEycaModelMock [Left (mkError "Cannot retrieve data")] [].

(** "should return failure if an error occurs during deleteVersion" *)
Definition deleteVersionFailureMock : UserEycaCardModel TestCard :=
  userEycaModelMock
    [Right (anArrayOfCardResults ++ [anArrayOfCardResultsItself])%list]
    [Left (mkError "Cannot delete version")].

(** "should return success if all versions are deleted" *)
Definition allDeletedMock : UserEycaCardModel TestCard :=
  userEycaModelMock [] [].

(** Three records, the delete of the second one fails. *)
Definition secondDeleteFailsMock : UserEycaCardModel TestCard :=
  userEycaModelMock
    [Right [aUserCardRevoked; anArrayOfCardResultsItself; aUserCardRevoked]]
    [Right "id"; Left (mkError "Cannot delete version")].

End Tests.

End DeleteEycaActivity.

(** ** Sample collaborators, used to run the definitions *)

Module Samples.

Import Config.

Definition aFiscalCode : FiscalCode := "RODFDS82S10H501T".

Definition aDate : Date := 1709251200000%Z.

Definition hostUnavailable : Thrown :=
  ThrownError (mkError "host unavailable").

(** A host on which [getStatus] and [terminate] fail and [startNew]
    succeeds. *)
Definition flakyClient : DurableOrchestrationClient :=
  {| getStatus := fun _ => Rejects hostUnavailable;
     startNew := fun _ instanceId _ => Resolves instanceId;
     terminate := fun _ _ => Rejects hostUnavailable |}.

(** A host on which every instance is running. *)
Definition busyClient : DurableOrchestrationClient :=
  {| getStatus := fun instanceId =>
       Resolves {| Host.name := "UpdateCgnOrchestrator";
                   instanceId := instanceId;
                   runtimeStatus := Running |};
     startNew := fun _ instanceId _ => Resolves instanceId;
     terminate := fun _ _ => Resolves tt |}.

Definition sweepEnv : UpdateExpiredCgn.Env :=
  {| UpdateExpiredCgn.today := "2024-03-01";
     UpdateExpiredCgn.getExpiredCgnUsers := fun _ _ => Right [aFiscalCode];
     UpdateExpiredCgn.client := flakyClient |}.

Definition failingQueryEnv : UpdateExpiredCgn.Env :=
  {| UpdateExpiredCgn.today := "2024-03-01";
     UpdateExpiredCgn.getExpiredCgnUsers :=
       fun _ _ => Left (mkError "table unavailable");
     UpdateExpiredCgn.client := busyClient |}.

(** The reason the spec gives for the terminations of the sweep. *)
Definition statedTerminationReason : string :=
  "a higher-priority status update needs to start".

(** The user has an activated card, nothing is running, the host
    starts what it is asked to. *)
Definition upsertEnv : UpsertCgnStatus.Env :=
  {| UpsertCgnStatus.now := aDate;
     UpsertCgnStatus.findLastVersionByModelId := fun fiscalCode =>
       Right (Some {| userFiscalCode := fiscalCode;
                      userStatus :=
                        CgnActivatedStatus 1646092800000%Z 1709251200000%Z |});
     UpsertCgnStatus.checkUpdateCgnIsRunning := fun _ _ => Right tt;
     UpsertCgnStatus.client := busyClient |}.

Definition anActivationRequest : CgnStatusUpsertRequest :=
  {| action := ACTIVATE; revocation_reason := None |}.

Definition aRevocationRequest : CgnStatusUpsertRequest :=
  {| action := REVOKE; revocation_reason := Some "lost" |}.

(** A Redis client that answers every [set] with [reply], no error. *)
Definition redisReplying (reply : option string) : RedisStorage.RedisClient :=
  {| RedisStorage.set := fun _ _ _ _ => RedisStorage.SetCallsBack None reply |}.

Definition redisFailing : RedisStorage.RedisClient :=
  {| RedisStorage.set := fun _ _ _ _ =>
       RedisStorage.SetCallsBack (Some (mkError "READONLY")) (Some "OK") |}.

(** Decimal numerals, a part of what [+s] converts to an integer. *)
Fixpoint digits (s : string) (acc : Z) : option Z :=
  match s with
  | EmptyString => Some acc
  | String c s' =>
      let n := nat_of_ascii c in
      if (48 <=? n)%nat && (n <=? 57)%nat
      then digits s' (10 * acc + Z.of_nat (n - 48))%Z
      else None
  end.

Definition decimal (s : string) : option Z :=
  match s with
  | EmptyString => None
  | String "-" s' => Z.opp <$> (match s' with EmptyString => None | _ => digits s' 0 end)
  | _ => digits s 0
  end.

Definition report (errors : list string) : string :=
  String.concat ", " errors.

(** An environment with every required variable and none of the three
    numeric ones. *)
Definition minimalEnv : gmap string string :=
  list_to_map
    [ ("APPINSIGHTS_INSTRUMENTATIONKEY", "key");
      ("CGN_EXPIRATION_TABLE_NAME", "cgnexpirations");
      ("EYCA_EXPIRATION_TABLE_NAME", "eycaexpirations");
      ("COSMOSDB_CGN_DATABASE_NAME", "db");
      ("COSMOSDB_CGN_KEY", "secret");
      ("COSMOSDB_CGN_URI", "https://cosmos");
      ("AzureWebJobsStorage", "storage");
      ("CGN_STORAGE_CONNECTION_STRING", "connection");
      ("EYCA_API_BASE_URL", "https://eyca");
      ("EYCA_API_PASSWORD", "password");
      ("EYCA_API_USERNAME", "username");
      ("REDIS_URL", "redis://cache") ].

(** The same, with the three numeric variables set to text that is no
    number. *)
Definition garbledEnv : gmap string string :=
  <["CGN_UPPER_BOUND_AGE" := "thirty-six"]>
    (<["EYCA_UPPER_BOUND_AGE" := "12.5"]>
       (<["OTP_TTL_IN_SECONDS" := "ten minutes"]> minimalEnv)).

End Samples.

(** ** Reading the recorded calls *)

Module Trace.

Definition isTerminate (e : Event) : bool :=
  match e with Terminate _ _ => true | _ => false end.

Definition isStartNew (e : Event) : bool :=
  match e with StartNew _ _ _ => true | _ => false end.

Definition isLog (e : Event) : bool :=
  match e with Log _ _ => true | _ => false end.

Definition count (which : Event -> bool) (es : list Event) : nat :=
  length (List.filter which es).

(** The message of the error of a start that failed, if it did. *)
Definition startError (answer : Settled string) : option string :=
  match answer with
  | Rejects e => Some (message (toError e))
  | Resolves _ => None
  end.

End Trace.

Module MoreSamples.

Definition threeUsers : list FiscalCode :=
  [ "RODFDS82S10H501T"; "AAABBB80A01H501U"; "RODFDS82S10H501T" ].

(** A host that refuses to start anything. *)
Definition refusingClient : DurableOrchestrationClient :=
  {| getStatus := fun _ => Rejects Samples.hostUnavailable;
     startNew := fun _ _ _ => Rejects (ThrownOther "quota exceeded");
     terminate := fun _ _ => Resolves tt |}.

Definition threeUsersEnv : UpdateExpiredCgn.Env :=
  {| UpdateExpiredCgn.today := "2024-03-01";
     UpdateExpiredCgn.getExpiredCgnUsers := fun _ _ => Right threeUsers;
     UpdateExpiredCgn.client := refusingClient |}.

(** The user has a card and an update of it is running. *)
Definition runningEnv : UpsertCgnStatus.Env :=
  {| UpsertCgnStatus.now := Samples.aDate;
     UpsertCgnStatus.findLastVersionByModelId := fun fiscalCode =>
       Right (Some {| userFiscalCode := fiscalCode;
                      userStatus := CgnPendingStatus |});
     UpsertCgnStatus.checkUpdateCgnIsRunning := fun _ _ =>
       Left UpsertCgnStatus.ResponseSuccessAccepted;
     UpsertCgnStatus.client := Samples.busyClient |}.

(** The user has no card. *)
Definition unknownUserEnv : UpsertCgnStatus.Env :=
  {| UpsertCgnStatus.now := Samples.aDate;
     UpsertCgnStatus.findLastVersionByModelId := fun _ => Right None;
     UpsertCgnStatus.checkUpdateCgnIsRunning := fun _ _ => Right tt;
     UpsertCgnStatus.client := Samples.busyClient |}.

(** The user has a card, nothing runs, the host refuses the start. *)
Definition refusedStartEnv : UpsertCgnStatus.Env :=
  {| UpsertCgnStatus.now := Samples.aDate;
     UpsertCgnStatus.findLastVersionByModelId := fun fiscalCode =>
       Right (Some {| userFiscalCode := fiscalCode;
                      userStatus := CgnPendingStatus |});
     UpsertCgnStatus.checkUpdateCgnIsRunning := fun _ _ => Right tt;
     UpsertCgnStatus.client := refusingClient |}.

(** A Redis holding one key. *)
Definition oneKeyRedis : RedisStorage.RedisReads :=
  {| RedisStorage.get := fun key =>
       RedisStorage.CallsBack None
         (if String.eqb key "otp" then Some "123456" else None);
     RedisStorage.exists_ := fun key =>
       RedisStorage.CallsBack None
         (RedisStorage.ReplyNumber (if String.eqb key "otp" then 1 else 0)) |}.

Definition brokenRedis : RedisStorage.RedisReads :=
  {| RedisStorage.get := fun _ =>
       RedisStorage.CallsBack (Some (mkError "LOADING")) (Some "123456");
     RedisStorage.exists_ := fun _ =>
       RedisStorage.CallsBack (Some (mkError "LOADING"))
         (RedisStorage.ReplyNumber 1) |}.

Definition throwingRedis : RedisStorage.RedisClient :=
  {| RedisStorage.set := fun _ _ _ _ =>
       RedisStorage.SetThrows (ThrownOther "connection closed") |}.

(** The minimal environment with flags and ages set. *)
Definition fullEnv : gmap string string :=
  <["CGN_UPPER_BOUND_AGE" := "40"]>
    (<["REDIS_TLS_ENABLED" := "TRUE"]>
       (<["REDIS_CLUSTER_ENABLED" := "yes"]>
          (<["NODE_ENV" := "production"]>
             (<["REDIS_PASSWORD" := "hunter2"]> Samples.minimalEnv)))).

Definition negativeAgeEnv : gmap string string :=
  <["EYCA_UPPER_BOUND_AGE" := "-5"]> Samples.minimalEnv.

End MoreSamples.

(** * Properties *)

(** ** The failure classifier *)

Section FailureClassifier.

Import Errors.

Lemma errorMsg_custom err custom :
  errorMsg err (Some custom)
  = "ERROR=" +:+ custom +:+ " DETAIL=" +:+ message err.
Proof. reflexivity. Qed.

Lemma errorMsg_plain err : errorMsg err None = "ERROR=" +:+ message err.
Proof. reflexivity. Qed.

(** C4.  Whatever the error and the custom reason, [toTransientFailure]
    gives a failure of kind [TRANSIENT] whose reason is
    "TRANSIENT FAILURE|ERROR=<customReason> DETAIL=<err.message>" when a
    custom reason is given and "TRANSIENT FAILURE|ERROR=<err.message>"
    when none is; [toPermanentFailure] gives kind [PERMANENT] and the
    same reason after "PERMANENT FAILURE|". *)
Theorem classifiers_kind_and_reason (err : Js.Error) (customReason : string) :
  toTransientFailure err (Some customReason)
  = {| kind := TRANSIENT;
       reason := "TRANSIENT FAILURE|ERROR=" +:+ customReason
                 +:+ " DETAIL=" +:+ message err |}
  /\ toTransientFailure err None
     = {| kind := TRANSIENT;
          reason := "TRANSIENT FAILURE|ERROR=" +:+ message err |}
  /\ toPermanentFailure err (Some customReason)
     = {| kind := PERMANENT;
          reason := "PERMANENT FAILURE|ERROR=" +:+ customReason
                    +:+ " DETAIL=" +:+ message err |}
  /\ toPermanentFailure err None
     = {| kind := PERMANENT;
          reason := "PERMANENT FAILURE|ERROR=" +:+ message err |}.
Proof.
  unfold toTransientFailure, toPermanentFailure.
  rewrite errorMsg_custom, errorMsg_plain.
  repeat split.
Qed.

Example toTransientFailure_sample :
  toTransientFailure (mkError "timeout") (Some "Cannot read")
  = {| kind := TRANSIENT;
       reason := "TRANSIENT FAILURE|ERROR=Cannot read DETAIL=timeout" |}.
Proof. reflexivity. Qed.

Lemma Failure_two_variants (f : Failure) :
  TransientFailure_is f = negb (PermanentFailure_is f).
Proof. destruct f as [[] r]; reflexivity. Qed.

(** C5.  [trackFailure] on a transient failure throws an error carrying
    the failure's reason and returns nothing; on a permanent failure it
    returns [{kind: "FAILURE", reason}] with that failure's reason; a
    failure is of exactly one of the two variants, so the two cases
    cover every [Failure]. *)
Theorem trackFailure_throws_or_returns (logPrefix : string) (f : Failure) :
  snd (trackFailure logPrefix f)
  = (if TransientFailure_is f
     then Throw (mkError (reason f))
     else Return (FAILURE (reason f)))
  /\ snd (trackFailure logPrefix {| kind := TRANSIENT; reason := reason f |})
     = Throw (mkError (reason f))
  /\ snd (trackFailure logPrefix {| kind := PERMANENT; reason := reason f |})
     = Return (FAILURE (reason f))
  /\ (f = {| kind := TRANSIENT; reason := reason f |}
      \/ f = {| kind := PERMANENT; reason := reason f |})
  /\ PermanentFailure_is f = negb (TransientFailure_is f).
Proof.
  destruct f as [[] r]; cbn; repeat split; auto.
Qed.

Example trackFailure_permanent_sample :
  trackFailure "DeleteEycaActivity"
    (toPermanentFailure (mkError "bad input") None)
  = ([ TrackException
         {| exception :=
              mkError ("DeleteEycaActivity|FATAL|PERMANENT_ERROR="
                       +:+ "PERMANENT FAILURE|ERROR=bad input");
            detail := "PERMANENT";
            fatal := "true";
            isSuccess := false;
            name := "cgn.exception.upsertSpecialService.failure" |};
       LogError ("DeleteEycaActivity|FATAL|PERMANENT_ERROR="
                 +:+ "PERMANENT FAILURE|ERROR=bad input") ],
     Return (FAILURE "PERMANENT FAILURE|ERROR=bad input")).
Proof. reflexivity. Qed.

End FailureClassifier.

(** ** Instance identifiers *)

Section InstanceIds.

Lemma append_suffix_differs (s a b : string) : a <> b -> s +:+ a <> s +:+ b.
Proof.
  intros Hne Heq. apply Hne.
  induction s as [|c s IH]; cbn in Heq; [assumption|].
  injection Heq as Heq. auto.
Qed.

(** C1.  The instance id is a function of the user and the target:
    equal inputs give equal ids.  For one user the REVOKED and the
    EXPIRED target give the same id, "{userId}-REVOKE", and the ACTIVATED
    target gives another one. *)
Theorem instanceId_namespaces
  (userId userId' : FiscalCode) (target target' : StatusEnum) :
  (userId = userId' -> target = target' ->
   makeUpdateCgnOrchestratorId userId target
   = makeUpdateCgnOrchestratorId userId' target')
  /\ makeUpdateCgnOrchestratorId userId REVOKED = userId +:+ "-REVOKE"
  /\ makeUpdateCgnOrchestratorId userId EXPIRED = userId +:+ "-REVOKE"
  /\ makeUpdateCgnOrchestratorId userId REVOKED
     = makeRevokeCgnOrchestratorId userId
  /\ makeUpdateCgnOrchestratorId userId ACTIVATED
     <> makeUpdateCgnOrchestratorId userId REVOKED
  /\ makeUpdateCgnOrchestratorId userId ACTIVATED
     <> makeUpdateCgnOrchestratorId userId EXPIRED.
Proof.
  split; [intros -> ->; reflexivity|].
  unfold makeUpdateCgnOrchestratorId, makeRevokeCgnOrchestratorId.
  repeat split; apply append_suffix_differs; discriminate.
Qed.

Lemma instanceId_namespaces_witness :
  makeUpdateCgnOrchestratorId "U1" EXPIRED
  = makeUpdateCgnOrchestratorId "U1" EXPIRED
  /\ makeUpdateCgnOrchestratorId "U1" EXPIRED = "U1-REVOKE"
  /\ makeUpdateCgnOrchestratorId "U1" ACTIVATED <> "U1-REVOKE".
Proof.
  destruct (instanceId_namespaces "U1" "U1" EXPIRED EXPIRED)
    as (Hsame & Hrev & Hexp & _ & Hact & _).
  split; [apply Hsame; reflexivity|].
  split; [exact Hexp|].
  rewrite Hrev in Hact. exact Hact.
Defined.

End InstanceIds.

(** ** isOrchestratorRunning *)

Section IsRunning.

Lemma runtimeStatus_eqb_eq a b : runtimeStatus_eqb a b = true <-> a = b.
Proof. destruct a, b; cbn; split; congruence. Qed.

(** C8.  When [getStatus] answers, the result is that status with an
    [isRunning] flag which is true exactly when the runtime status is
    [Running] or [Pending]; when [getStatus] throws, the result is a
    [Left] carrying the error ([toError] of what was thrown, the error
    itself when an [Error] was thrown). *)
Theorem isOrchestratorRunning_flag
  (client : DurableOrchestrationClient) (orchestratorId : string) :
  (forall st, getStatus client orchestratorId = Resolves st ->
     exists r,
       result (isOrchestratorRunning client orchestratorId) = Right r
       /\ status r = st
       /\ (isRunning r = true
           <-> runtimeStatus st = Running \/ runtimeStatus st = Pending))
  /\ (forall e, getStatus client orchestratorId = Rejects e ->
        result (isOrchestratorRunning client orchestratorId)
        = Left (toError e))
  /\ (forall err,
        getStatus client orchestratorId = Rejects (ThrownError err) ->
        result (isOrchestratorRunning client orchestratorId) = Left err).
Proof.
  unfold isOrchestratorRunning, result, call, ret, Host.bind; cbn.
  split; [|split].
  - intros st ->. cbn. eexists; split; [reflexivity|]. cbn.
    split; [reflexivity|].
    rewrite orb_true_iff, !runtimeStatus_eqb_eq. reflexivity.
  - intros e ->. reflexivity.
  - intros err ->. reflexivity.
Qed.

Lemma isOrchestratorRunning_flag_witness :
  (exists r,
     result (isOrchestratorRunning Samples.busyClient "U1-REVOKE") = Right r
     /\ isRunning r = true)
  /\ result (isOrchestratorRunning Samples.flakyClient "U1-REVOKE")
     = Left (mkError "host unavailable").
Proof.
  split.
  - destruct (isOrchestratorRunning_flag Samples.busyClient "U1-REVOKE")
      as (Hok & _).
    destruct (Hok _ eq_refl) as (r & Hr & Hst & Hflag).
    exists r. split; [exact Hr|].
    apply Hflag. left. reflexivity.
  - destruct (isOrchestratorRunning_flag Samples.flakyClient "U1-REVOKE")
      as (_ & _ & Herr).
    apply Herr. reflexivity.
Defined.

Example isOrchestratorRunning_completed :
  forall client,
    getStatus client "U1-REVOKE"
    = Resolves {| Host.name := "UpdateCgnOrchestrator";
                  instanceId := "U1-REVOKE";
                  runtimeStatus := Completed |} ->
    Js.map isRunning (result (isOrchestratorRunning client "U1-REVOKE"))
    = Right false.
Proof.
  intros client H. unfold isOrchestratorRunning, result, call, ret, Host.bind.
  cbn. rewrite H. reflexivity.
Qed.

End IsRunning.

(** ** The daily sweep *)

Section DailySweep.

Import UpdateExpiredCgn.

(** The calls of the callback of one user, whatever the host answers. *)
Lemma forEachUser_events (env : Env) (logPrefix : string) (user : FiscalCode) :
  events (forEachUser env logPrefix user)
  = Terminate (makeUpdateCgnOrchestratorId user ACTIVATED)
      ORCHESTRATION_TERMINATION_REASON
    :: Terminate (makeUpdateCgnOrchestratorId user REVOKED)
         ORCHESTRATION_TERMINATION_REASON
    :: Log Info
         (logPrefix +:+ "| Starting new expire orchestrator for fiscalCode="
          +:+ substr0 6 user)
    :: StartNew "UpdateCgnOrchestrator"
         (makeUpdateCgnOrchestratorId user EXPIRED)
         {| fiscalCode := user; newStatus := CgnExpiredStatus |}
    :: match
         startNew (client env) "UpdateCgnOrchestrator"
           (makeUpdateCgnOrchestratorId user EXPIRED)
           {| fiscalCode := user; newStatus := CgnExpiredStatus |}
       with
       | Rejects e =>
           [ Log Error
               (logPrefix
                +:+ "|Error while starting CGN expiration for fiscalCode="
                +:+ substr0 6 user +:+ "|ERROR=" +:+ message (toError e)) ]
       | Resolves _ => []
       end.
Proof.
  unfold forEachUser, terminateOrchestratorTask, events, call, emit, ret,
    Host.bind.
  cbn.
  destruct (startNew _ _ _ _); reflexivity.
Qed.

(** What [terminate] answers has no part in the calls of the callback:
    on two hosts that differ in [terminate] only, they are the same. *)
Lemma forEachUser_ignores_terminate
  (env : Env) (logPrefix : string) (user : FiscalCode)
  (terminate' : string -> string -> Settled unit) :
  events
    (forEachUser
       {| today := today env;
          getExpiredCgnUsers := getExpiredCgnUsers env;
          client :=
            {| getStatus := getStatus (client env);
               startNew := startNew (client env);
               terminate := terminate' |} |}
       logPrefix user)
  = events (forEachUser env logPrefix user).
Proof. rewrite !forEachUser_events. reflexivity. Qed.

(** C7.  When the query for the records expiring today fails, the sweep
    writes the error to the log and returns: it launches no callback, and
    none of its calls reaches the workflow host (no client is taken, no
    status read, nothing terminated, nothing started). *)
Theorem sweep_aborts_when_query_fails
  (env : Env) (tableName logPrefix : string) (err : Js.Error) :
  getExpiredCgnUsers env tableName (today env) = Left err ->
  main (getUpdateExpiredCgnHandler env tableName logPrefix)
  = [ GetExpiredCgnUsers tableName (today env);
      Log Verbose (logPrefix +:+ "|ERROR=" +:+ message err) ]
  /\ perUser (getUpdateExpiredCgnHandler env tableName logPrefix) = []
  /\ forall e,
       In e (allEvents (getUpdateExpiredCgnHandler env tableName logPrefix)) ->
       isOrchestrationEffect e = false.
Proof.
  intros Hquery. unfold getUpdateExpiredCgnHandler, allEvents.
  rewrite Hquery. cbn.
  repeat split.
  intros e [<- | [<- | []]]; reflexivity.
Qed.

Lemma sweep_aborts_when_query_fails_witness :
  allEvents
    (getUpdateExpiredCgnHandler Samples.failingQueryEnv "cgnexpirations"
       "UpdateExpiredCgnHandler")
  = [ GetExpiredCgnUsers "cgnexpirations" "2024-03-01";
      Log Verbose "UpdateExpiredCgnHandler|ERROR=table unavailable" ].
Proof.
  destruct (sweep_aborts_when_query_fails Samples.failingQueryEnv
              "cgnexpirations" "UpdateExpiredCgnHandler"
              (mkError "table unavailable") eq_refl) as (Hmain & Hnone & _).
  unfold allEvents. rewrite Hmain, Hnone. reflexivity.
Defined.

(** C2, as stated, fails: on a host whose [terminate] fails, the sweep
    gives another reason than the stated one to both [terminate] calls,
    and the only line it logs for the user announces the start. *)
Lemma sweep_stated_reason_counterexample :
  events (forEachUser Samples.sweepEnv "UpdateExpiredCgnHandler"
            Samples.aFiscalCode)
  = [ Terminate "RODFDS82S10H501T-ACTIVATE"
        "An highest priority CGN update orchestrator needs to start";
      Terminate "RODFDS82S10H501T-REVOKE"
        "An highest priority CGN update orchestrator needs to start";
      Log Info
        "UpdateExpiredCgnHandler| Starting new expire orchestrator for fiscalCode=RODFDS";
      StartNew "UpdateCgnOrchestrator" "RODFDS82S10H501T-REVOKE"
        {| fiscalCode := "RODFDS82S10H501T"; newStatus := CgnExpiredStatus |} ]
  /\ terminate (client Samples.sweepEnv) "RODFDS82S10H501T-ACTIVATE"
       ORCHESTRATION_TERMINATION_REASON
     = Rejects Samples.hostUnavailable
  /\ ~ (forall instanceId reason,
          In (Terminate instanceId reason)
            (events (forEachUser Samples.sweepEnv "UpdateExpiredCgnHandler"
                       Samples.aFiscalCode)) ->
          reason = Samples.statedTerminationReason).
Proof.
  split; [reflexivity|]. split; [reflexivity|].
  intros Hall.
  specialize (Hall "RODFDS82S10H501T-ACTIVATE"
                "An highest priority CGN update orchestrator needs to start").
  discriminate Hall. left. reflexivity.
Qed.

(** C2, amended.  For every user of the result set, the callback the
    sweep launches calls [terminate] on the user's instance in the
    ACTIVATED namespace, then on the one in the REVOKED namespace, both
    with the reason "An highest priority CGN update orchestrator needs to
    start", then logs that it starts and starts the EXPIRED orchestration,
    whatever the two [terminate] calls answered.  After the start it does
    nothing more when the start succeeded, and logs the error of the
    start, with its message, when the start failed: it logs nothing
    else, and nothing of a failed [terminate]. *)
Theorem sweep_terminates_then_starts
  (env : Env) (tableName logPrefix : string)
  (users : list FiscalCode) (user : FiscalCode) :
  getExpiredCgnUsers env tableName (today env) = Right users ->
  In user users ->
  exists tail,
    In (user,
        Terminate (makeUpdateCgnOrchestratorId user ACTIVATED)
          "An highest priority CGN update orchestrator needs to start"
        :: Terminate (makeUpdateCgnOrchestratorId user REVOKED)
             "An highest priority CGN update orchestrator needs to start"
        :: Log Info
             (logPrefix
              +:+ "| Starting new expire orchestrator for fiscalCode="
              +:+ substr0 6 user)
        :: StartNew "UpdateCgnOrchestrator"
             (makeUpdateCgnOrchestratorId user EXPIRED)
             {| fiscalCode := user; newStatus := CgnExpiredStatus |}
        :: tail)
       (perUser (getUpdateExpiredCgnHandler env tableName logPrefix))
    /\ ((exists started,
           startNew (client env) "UpdateCgnOrchestrator"
             (makeUpdateCgnOrchestratorId user EXPIRED)
             {| fiscalCode := user; newStatus := CgnExpiredStatus |}
           = Resolves started
           /\ tail = [])
        \/ exists e,
             startNew (client env) "UpdateCgnOrchestrator"
               (makeUpdateCgnOrchestratorId user EXPIRED)
               {| fiscalCode := user; newStatus := CgnExpiredStatus |}
             = Rejects e
             /\ tail
                = [ Log Error
                      (logPrefix
                       +:+ "|Error while starting CGN expiration for fiscalCode="
                       +:+ substr0 6 user +:+ "|ERROR="
                       +:+ message (toError e)) ]).
Proof.
  intros Hquery Hin.
  unfold getUpdateExpiredCgnHandler. rewrite Hquery. cbn [perUser].
  eexists. split.
  - apply in_map_iff. exists user. split; [|exact Hin].
    rewrite forEachUser_events. reflexivity.
  - destruct (startNew _ _ _ _) as [e|started] eqn:Hstart.
    + right. exists e. split; reflexivity.
    + left. exists started. split; reflexivity.
Qed.

Lemma sweep_terminates_then_starts_witness :
  In (Samples.aFiscalCode,
      [ Terminate "RODFDS82S10H501T-ACTIVATE"
          "An highest priority CGN update orchestrator needs to start";
        Terminate "RODFDS82S10H501T-REVOKE"
          "An highest priority CGN update orchestrator needs to start";
        Log Info
          "UpdateExpiredCgnHandler| Starting new expire orchestrator for fiscalCode=RODFDS";
        StartNew "UpdateCgnOrchestrator" "RODFDS82S10H501T-REVOKE"
          {| fiscalCode := Samples.aFiscalCode;
             newStatus := CgnExpiredStatus |} ])
     (perUser
        (getUpdateExpiredCgnHandler Samples.sweepEnv "cgnexpirations"
           "UpdateExpiredCgnHandler"))
  /\ exists tail,
       In ("AAABBB80A01H501U",
           Terminate "AAABBB80A01H501U-ACTIVATE"
             "An highest priority CGN update orchestrator needs to start"
           :: Terminate "AAABBB80A01H501U-REVOKE"
                "An highest priority CGN update orchestrator needs to start"
           :: Log Info
                "UpdateExpiredCgnHandler| Starting new expire orchestrator for fiscalCode=AAABBB"
           :: StartNew "UpdateCgnOrchestrator" "AAABBB80A01H501U-REVOKE"
                {| fiscalCode := "AAABBB80A01H501U";
                   newStatus := CgnExpiredStatus |}
           :: tail)
         (perUser
            (getUpdateExpiredCgnHandler MoreSamples.threeUsersEnv
               "cgnexpirations" "UpdateExpiredCgnHandler"))
       /\ tail
          = [ Log Error
                "UpdateExpiredCgnHandler|Error while starting CGN expiration for fiscalCode=AAABBB|ERROR=quota exceeded" ].
Proof.
  split.
  - destruct (sweep_terminates_then_starts Samples.sweepEnv "cgnexpirations"
                "UpdateExpiredCgnHandler" [Samples.aFiscalCode]
                Samples.aFiscalCode eq_refl (or_introl eq_refl))
      as (tail & Hin & [(started & _ & ->) | (e & He & _)]).
    + exact Hin.
    + discriminate He.
  - destruct (sweep_terminates_then_starts MoreSamples.threeUsersEnv
                "cgnexpirations" "UpdateExpiredCgnHandler"
                MoreSamples.threeUsers "AAABBB80A01H501U" eq_refl
                (or_intror (or_introl eq_refl)))
      as (tail & Hin & [(started & Hs & _) | (e & He & ->)]).
    + discriminate Hs.
    + exists [ Log Error
                 "UpdateExpiredCgnHandler|Error while starting CGN expiration for fiscalCode=AAABBB|ERROR=quota exceeded" ].
      injection He as <-. split; [exact Hin | reflexivity].
Defined.

End DailySweep.

(** ** The status-change request handler *)

Section UpsertGuard.

Import UpsertCgnStatus.

(** All that is used of the codec of revocation requests: it accepts
    requests whose action is REVOKE only. *)
Variable codec : CgnStatusUpsertRequest -> bool.
Hypothesis codec_accepts_revoke_only :
  forall request, codec request = true -> action request = REVOKE.

Lemma handler_rejects_at_guard env logPrefix user request :
  codec request = false ->
  UpsertCgnStatusHandler codec env logPrefix user request
  = ([GetClient], ResponseErrorForbiddenNotAuthorized).
Proof.
  intros Hno.
  unfold UpsertCgnStatusHandler, TaskEither.fold, TaskEither.foldTaskEither,
    TaskEither.chain, TaskEither.fromPredicate.
  rewrite Hno. reflexivity.
Qed.

(** Past the guard, the handler reads the store, asks whether an update
    is running and starts the orchestration, in that order. *)
Lemma handler_past_guard env logPrefix user request :
  codec request = true ->
  UpsertCgnStatusHandler codec env logPrefix user request
  = match findLastVersionByModelId env user with
    | Left _ =>
        ([GetClient; FindLastVersionByModelId user],
         ResponseErrorInternal "Cannot retrieve CGN infos for this user")
    | Right None =>
        ([GetClient; FindLastVersionByModelId user],
         ResponseErrorNotFound "Not Found" "User's CGN status not found")
    | Right (Some _) =>
        let cgnStatus := toCgnStatus (now env) request in
        let orchestratorId := makeUpdateCgnOrchestratorId user REVOKED in
        let input := {| fiscalCode := user; newStatus := cgnStatus |} in
        match checkUpdateCgnIsRunning env user cgnStatus with
        | Left response =>
            ([GetClient; FindLastVersionByModelId user;
              CheckUpdateCgnIsRunning user cgnStatus], response)
        | Right _ =>
            match
              startNew (client env) "UpdateCgnOrchestrator" orchestratorId
                input
            with
            | Rejects e =>
                ([GetClient; FindLastVersionByModelId user;
                  CheckUpdateCgnIsRunning user cgnStatus;
                  StartNew "UpdateCgnOrchestrator" orchestratorId input;
                  Log Error
                    (logPrefix
                     +:+ "|Cannot start UpdateCgnOrchestrator|ERROR="
                     +:+ message (toError e))],
                 ResponseErrorInternal "Cannot start UpdateCgnOrchestrator")
            | Resolves _ =>
                ([GetClient; FindLastVersionByModelId user;
                  CheckUpdateCgnIsRunning user cgnStatus;
                  StartNew "UpdateCgnOrchestrator" orchestratorId input],
                 ResponseSuccessRedirectToResource
                   {| id := orchestratorId |}
                   ("/api/v1/cgn/status/" +:+ user)
                   {| id := orchestratorId |})
            end
        end
    end.
Proof.
  intros Hyes.
  unfold UpsertCgnStatusHandler, TaskEither.fold, TaskEither.foldTaskEither,
    TaskEither.chain, TaskEither.fromPredicate, TaskEither.bimap,
    TaskEither.map, TaskEither.fromEither, TaskEither.fromOption,
    TaskEither.of_, TaskEither.fromLeft, call, emit, ret, Host.bind.
  rewrite Hyes. cbn.
  destruct (findLastVersionByModelId env user) as [e|[u|]]; cbn;
    try reflexivity.
  destruct (checkUpdateCgnIsRunning env user _) as [response|[]]; cbn.
  - destruct (isResponseSuccessAccepted response); reflexivity.
  - destruct (startNew _ _ _ _); reflexivity.
Qed.

(** C3, amended.  A request whose action is ACTIVATE is answered
    Forbidden when the handler has done no more than take the client: the
    handler lets through the requests the codec of revocation requests
    accepts, and no other.
    Every orchestration it starts is given the status
    [{status: REVOKED, revocation_date: now, revocation_reason}];
    [toCgnStatus] maps a request that is not a REVOKE to
    [{status: PENDING}], which the handler never passes on.  Past the
    guard, Forbidden is returned only when [checkUpdateCgnIsRunning]
    answers it. *)
Theorem handler_forbids_activation
  (env : Env) (logPrefix : string) (user : FiscalCode)
  (request : CgnStatusUpsertRequest) :
  (action request = ACTIVATE ->
     UpsertCgnStatusHandler codec env logPrefix user request
     = ([GetClient], ResponseErrorForbiddenNotAuthorized)
     /\ toCgnStatus (now env) request = CgnPendingStatus)
  /\ (codec request = false ->
        UpsertCgnStatusHandler codec env logPrefix user request
        = ([GetClient], ResponseErrorForbiddenNotAuthorized))
  /\ (codec request = true ->
        result (UpsertCgnStatusHandler codec env logPrefix user request)
        = ResponseErrorForbiddenNotAuthorized ->
        checkUpdateCgnIsRunning env user (toCgnStatus (now env) request)
        = Left ResponseErrorForbiddenNotAuthorized)
  /\ (forall input,
        In input
          (startedInputs
             (events (UpsertCgnStatusHandler codec env logPrefix user request))) ->
        input
        = {| fiscalCode := user;
             newStatus :=
               CgnRevokedStatus (now env) (revocation_reason request) |}).
Proof.
  split; [|split; [|split]].
  - intros Hact. split.
    + apply handler_rejects_at_guard.
      destruct (codec request) eqn:Hc; [|reflexivity].
      apply codec_accepts_revoke_only in Hc. congruence.
    + unfold toCgnStatus. rewrite Hact. reflexivity.
  - apply handler_rejects_at_guard.
  - intros Hc. rewrite (handler_past_guard _ _ _ _ Hc). unfold result.
    destruct (findLastVersionByModelId env user) as [e|[u|]]; cbn;
      try discriminate.
    destruct (checkUpdateCgnIsRunning env user _) as [response|[]]; cbn.
    + intros ->. reflexivity.
    + destruct (startNew _ _ _ _); cbn; discriminate.
  - intros input. destruct (codec request) eqn:Hc.
    + rewrite (handler_past_guard _ _ _ _ Hc). unfold events.
      pose proof (codec_accepts_revoke_only _ Hc) as Hrev.
      unfold toCgnStatus. rewrite Hrev.
      destruct (findLastVersionByModelId env user) as [e|[u|]]; cbn;
        try tauto.
      destruct (checkUpdateCgnIsRunning env user _) as [response|[]]; cbn;
        try tauto.
      destruct (startNew _ _ _ _); cbn; intros [<-|[]]; reflexivity.
    + rewrite (handler_rejects_at_guard _ _ _ _ Hc). intros [].
Qed.

End UpsertGuard.

Section UpsertScenarios.

Import UpsertCgnStatus.

Lemma spec_codec_accepts_revoke_only request :
  CgnStatusRevocationRequest_is request = true -> action request = REVOKE.
Proof.
  destruct request as [[] [r|]]; cbn; congruence.
Qed.

Lemma handler_forbids_activation_witness :
  UpsertCgnStatusHandler CgnStatusRevocationRequest_is Samples.upsertEnv
    "UpsertCgnStatusHandler" Samples.aFiscalCode Samples.anActivationRequest
  = ([GetClient], ResponseErrorForbiddenNotAuthorized)
  /\ forall input,
       In input
         (startedInputs
            (events
               (UpsertCgnStatusHandler CgnStatusRevocationRequest_is
                  Samples.upsertEnv "UpsertCgnStatusHandler"
                  Samples.aFiscalCode Samples.aRevocationRequest))) ->
       input
       = {| fiscalCode := Samples.aFiscalCode;
            newStatus := CgnRevokedStatus Samples.aDate (Some "lost") |}.
Proof.
  split.
  - apply (handler_forbids_activation CgnStatusRevocationRequest_is
             spec_codec_accepts_revoke_only Samples.upsertEnv
             "UpsertCgnStatusHandler" Samples.aFiscalCode
             Samples.anActivationRequest).
    reflexivity.
  - apply (handler_forbids_activation CgnStatusRevocationRequest_is
             spec_codec_accepts_revoke_only Samples.upsertEnv
             "UpsertCgnStatusHandler" Samples.aFiscalCode
             Samples.aRevocationRequest).
Defined.

(** C3, as stated, fails: an ACTIVATE request without a revocation
    reason, for a user who has a card and no update running, is answered
    Forbidden, and no orchestration is started for it. *)
Lemma handler_activation_counterexample :
  action Samples.anActivationRequest = ACTIVATE
  /\ revocation_reason Samples.anActivationRequest = None
  /\ result
       (UpsertCgnStatusHandler CgnStatusRevocationRequest_is
          Samples.upsertEnv "UpsertCgnStatusHandler" Samples.aFiscalCode
          Samples.anActivationRequest)
     = ResponseErrorForbiddenNotAuthorized
  /\ startedInputs
       (events
          (UpsertCgnStatusHandler CgnStatusRevocationRequest_is
             Samples.upsertEnv "UpsertCgnStatusHandler" Samples.aFiscalCode
             Samples.anActivationRequest))
     = [].
Proof. repeat split. Qed.

(** The scenario of the spec: a REVOKE request with reason "lost" for a
    user with a card and nothing running is redirected to the instance
    "{userId}-REVOKE", started with the revoked status. *)
Example handler_revocation_scenario :
  UpsertCgnStatusHandler CgnStatusRevocationRequest_is Samples.upsertEnv
    "UpsertCgnStatusHandler" Samples.aFiscalCode Samples.aRevocationRequest
  = ([ GetClient;
       FindLastVersionByModelId "RODFDS82S10H501T";
       CheckUpdateCgnIsRunning "RODFDS82S10H501T"
         (CgnRevokedStatus Samples.aDate (Some "lost"));
       StartNew "UpdateCgnOrchestrator" "RODFDS82S10H501T-REVOKE"
         {| fiscalCode := "RODFDS82S10H501T";
            newStatus := CgnRevokedStatus Samples.aDate (Some "lost") |} ],
     ResponseSuccessRedirectToResource
       {| id := "RODFDS82S10H501T-REVOKE" |}
       "/api/v1/cgn/status/RODFDS82S10H501T"
       {| id := "RODFDS82S10H501T-REVOKE" |}).
Proof. reflexivity. Qed.

End UpsertScenarios.

(** ** Redis: set with expiration *)

Section RedisSet.

Import RedisStorage.

(** The message of the error built for a reply that is not "OK". *)
Lemma errorMsg_or_default (errorMsg : option string) :
  (if truthy errorMsg
   then default defaultSetErrorMsg errorMsg
   else defaultSetErrorMsg)
  = match errorMsg with
    | Some (String c m) => String c m
    | _ => defaultSetErrorMsg
    end.
Proof. destruct errorMsg as [[|c m]|]; reflexivity. Qed.

Lemma singleStringReply_ok reply :
  singleStringReply None reply = Right true <-> reply = Some "OK".
Proof.
  unfold singleStringReply. destruct reply as [r|].
  - split.
    + intros H. injection H as H. apply String.eqb_eq in H. congruence.
    + intros H. injection H as ->. reflexivity.
  - split; discriminate.
Qed.

(** C9, as stated, fails: with the empty string given as [errorMsg] and
    a reply that is not "OK", the error carries the default message, not
    the given one. *)
Lemma setWithExpirationTask_empty_errorMsg_counterexample :
  setWithExpirationTask (Samples.redisReplying None) "otp" "value" 600
    (Some EmptyString)
  = Left (mkError "Error setting key value pair on redis")
  /\ setWithExpirationTask (Samples.redisReplying None) "otp" "value" 600
       (Some EmptyString)
     <> Left (mkError EmptyString).
Proof. split; [reflexivity | discriminate]. Qed.

(** C9, amended.  [setWithExpirationTask] gives [Right(true)] exactly
    when Redis calls back with no error and the reply "OK"; when it calls
    back with no error and another reply, the result is [Left] of an
    error whose message is [errorMsg] when that is given and not empty,
    and "Error setting key value pair on redis" otherwise; an error of
    Redis is returned as [Left] of that error; [Right(false)] is never
    returned. *)
Theorem setWithExpirationTask_reply
  (redisClient : RedisClient) (key value : string)
  (expirationInSeconds : Z) (errorMsg : option string) :
  (setWithExpirationTask redisClient key value expirationInSeconds errorMsg
   = Right true
   <-> set redisClient key value "EX" expirationInSeconds
       = SetCallsBack None (Some "OK"))
  /\ (forall reply,
        set redisClient key value "EX" expirationInSeconds
        = SetCallsBack None reply ->
        reply <> Some "OK" ->
        setWithExpirationTask redisClient key value expirationInSeconds
          errorMsg
        = Left (mkError
                  match errorMsg with
                  | Some (String c m) => String c m
                  | _ => "Error setting key value pair on redis"
                  end))
  /\ (forall e reply,
        set redisClient key value "EX" expirationInSeconds
        = SetCallsBack (Some e) reply ->
        setWithExpirationTask redisClient key value expirationInSeconds
          errorMsg
        = Left e)
  /\ setWithExpirationTask redisClient key value expirationInSeconds errorMsg
     <> Right false.
Proof.
  unfold setWithExpirationTask. rewrite errorMsg_or_default.
  destruct (set redisClient key value "EX" expirationInSeconds)
    as [thrown | [e|] reply]; cbn.
  - repeat split; try discriminate.
  - repeat split; try discriminate.
    intros e' reply' H. congruence.
  - destruct (singleStringReply_ok reply) as [Hok1 Hok2].
    unfold singleStringReply in *.
    destruct (match reply with
              | Some r => (r =? "OK")%string
              | None => false
              end) eqn:Hreply; cbn.
    + specialize (Hok1 eq_refl). subst reply.
      repeat split; try discriminate.
      intros reply' H Hne. congruence.
    + repeat split; try discriminate.
      intros H. injection H as ->. discriminate (Hok2 eq_refl).
Qed.

Lemma setWithExpirationTask_reply_witness :
  setWithExpirationTask (Samples.redisReplying (Some "OK")) "otp" "value" 600
    (Some "Cannot store the OTP")
  = Right true
  /\ setWithExpirationTask (Samples.redisReplying None) "otp" "value" 600
       (Some "Cannot store the OTP")
     = Left (mkError "Cannot store the OTP")
  /\ setWithExpirationTask Samples.redisFailing "otp" "value" 600 None
     = Left (mkError "READONLY").
Proof.
  split; [|split].
  - apply (setWithExpirationTask_reply (Samples.redisReplying (Some "OK"))
             "otp" "value" 600 (Some "Cannot store the OTP")).
    reflexivity.
  - destruct (setWithExpirationTask_reply (Samples.redisReplying None)
                "otp" "value" 600 (Some "Cannot store the OTP"))
      as (_ & Hother & _).
    apply (Hother None); [reflexivity | discriminate].
  - destruct (setWithExpirationTask_reply Samples.redisFailing
                "otp" "value" 600 None) as (_ & _ & Herr & _).
    apply (Herr (mkError "READONLY") (Some "OK")). reflexivity.
Defined.

End RedisSet.

(** ** Configuration *)

Section Configuration.

Import Config.

Lemma errorsOf_ap {A B} (f : Validation (A -> B)) (x : Validation A) :
  errorsOf (ap f x) = (errorsOf f ++ errorsOf x)%list.
Proof.
  destruct f, x; cbn; try reflexivity.
  symmetry. apply app_nil_r.
Qed.

Lemma ap_Right {A B} (f : Validation (A -> B)) (x : Validation A) (b : B) :
  ap f x = Right b -> exists g a, f = Right g /\ x = Right a /\ b = g a.
Proof.
  destruct f as [es|g], x as [es'|a]; cbn; try discriminate.
  intros H. injection H as <-. eauto.
Qed.

Lemma errorsOf_required {A} o key (codec : JsValue -> option A) k :
  In k (errorsOf (required o key codec)) -> k = key.
Proof.
  unfold required. destruct (o !! key ≫= codec); cbn; [tauto|].
  intros [<-|[]]. reflexivity.
Qed.

Lemma errorsOf_optional {A} o key (codec : JsValue -> option A) k :
  In k (errorsOf (optional o key codec)) -> k = key.
Proof.
  unfold optional. destruct (o !! key) as [v|]; cbn; [|tauto].
  destruct (codec v); cbn; [tauto|].
  intros [<-|[]]. reflexivity.
Qed.

Lemma required_number o key n :
  o !! key = Some (VNumber n) -> (0 <= n)%Z ->
  required o key NonNegativeInteger_is = Right n.
Proof.
  intros Hkey Hn. unfold required. rewrite Hkey. cbn.
  destruct (Z.leb_spec 0 n); [reflexivity | lia].
Qed.

Lemma lookup_setProp_eq key v (o : gmap string JsValue) :
  setProp key v o !! key = v.
Proof.
  destruct v; cbn; [apply lookup_insert_eq | apply lookup_delete_eq].
Qed.

Lemma lookup_setProp_ne key key' v (o : gmap string JsValue) :
  key <> key' -> setProp key v o !! key' = o !! key'.
Proof.
  intros Hne.
  destruct v; cbn; [by apply lookup_insert_ne | by apply lookup_delete_ne].
Qed.

(** The errors of the whole validation are those of its properties:
    a numeric property that validates is not among them. *)
Lemma number_not_in_errors o key n :
  key = "CGN_UPPER_BOUND_AGE" \/ key = "EYCA_UPPER_BOUND_AGE"
  \/ key = "OTP_TTL_IN_SECONDS" ->
  required o key NonNegativeInteger_is = Right n ->
  ~ In key (errorsOf (IConfig_decode o)).
Proof.
  intros Hkey Hreq Hin.
  unfold IConfig_decode in Hin. rewrite !errorsOf_ap in Hin.
  cbn [errorsOf app] in Hin. rewrite !in_app_iff in Hin.
  destruct Hkey as [-> | [-> | ->]];
    repeat match type of Hin with
           | _ \/ _ => destruct Hin as [Hin|Hin]
           end;
    first [ rewrite Hreq in Hin; exact Hin
          | apply errorsOf_required in Hin; discriminate Hin
          | apply errorsOf_optional in Hin; discriminate Hin ].
Qed.

(** A validated configuration holds what each property validated to. *)
Lemma IConfig_decode_numbers o c :
  IConfig_decode o = Right c ->
  required o "CGN_UPPER_BOUND_AGE" NonNegativeInteger_is
  = Right (CGN_UPPER_BOUND_AGE c)
  /\ required o "EYCA_UPPER_BOUND_AGE" NonNegativeInteger_is
     = Right (EYCA_UPPER_BOUND_AGE c)
  /\ required o "OTP_TTL_IN_SECONDS" NonNegativeInteger_is
     = Right (OTP_TTL_IN_SECONDS c).
Proof.
  unfold IConfig_decode. intros H.
  repeat match type of H with
         | ap _ _ = Right _ =>
             let g := fresh "g" in
             let a := fresh "a" in
             let Hx := fresh "Hx" in
             apply ap_Right in H;
             destruct H as (g & a & H & Hx & ->)
         end.
  injection H as <-. cbn. auto.
Qed.

Variable stringToInteger : string -> option Z.
Variable readableReport : list string -> string.

Lemma integerOr_default dflt u :
  notAnInteger stringToInteger u ->
  integerOr stringToInteger dflt u = VNumber dflt.
Proof.
  unfold notAnInteger, integerOr, IntegerFromString_decode.
  destruct u as [s|]; [intros ->|]; reflexivity.
Qed.

Lemma rawConfig_numbers env :
  rawConfig stringToInteger env !! "CGN_UPPER_BOUND_AGE"
  = Some (integerOr stringToInteger DEFAULT_CGN_UPPER_BOUND_AGE
            (env !! "CGN_UPPER_BOUND_AGE"))
  /\ rawConfig stringToInteger env !! "EYCA_UPPER_BOUND_AGE"
     = Some (integerOr stringToInteger DEFAULT_EYCA_UPPER_BOUND_AGE
               (env !! "EYCA_UPPER_BOUND_AGE"))
  /\ rawConfig stringToInteger env !! "OTP_TTL_IN_SECONDS"
     = Some (integerOr stringToInteger 600 (env !! "OTP_TTL_IN_SECONDS")).
Proof.
  unfold rawConfig.
  repeat split;
    repeat (first [ rewrite lookup_setProp_eq
                  | rewrite lookup_setProp_ne by discriminate ]);
    reflexivity.
Qed.

Lemma default_kept env key dflt :
  key = "CGN_UPPER_BOUND_AGE" \/ key = "EYCA_UPPER_BOUND_AGE"
  \/ key = "OTP_TTL_IN_SECONDS" ->
  rawConfig stringToInteger env !! key
  = Some (integerOr stringToInteger dflt (env !! key)) ->
  (0 <= dflt)%Z ->
  notAnInteger stringToInteger (env !! key) ->
  rawConfig stringToInteger env !! key = Some (VNumber dflt)
  /\ ~ In key (errorsOf (errorOrConfig stringToInteger env))
  /\ required (rawConfig stringToInteger env) key NonNegativeInteger_is
     = Right dflt.
Proof.
  intros Hkey Hraw Hpos Hnot.
  rewrite (integerOr_default _ _ Hnot) in Hraw.
  pose proof (required_number _ _ _ Hraw Hpos) as Hreq.
  split; [exact Hraw|]. split; [|exact Hreq].
  apply (number_not_in_errors _ _ dflt Hkey Hreq).
Qed.

(** C10.  When [CGN_UPPER_BOUND_AGE], [EYCA_UPPER_BOUND_AGE] or
    [OTP_TTL_IN_SECONDS] is missing from the environment or is not the
    text of an integer, the object that is validated holds the default
    (36, 31 and 600) for it, the validation reports no error for it, and
    a validated configuration carries the default.  [getConfigOrThrow]
    throws exactly when the validation of [IConfig] fails, and returns
    the validated configuration otherwise. *)
Theorem config_defaults_and_throw (env : gmap string string) :
  (notAnInteger stringToInteger (env !! "CGN_UPPER_BOUND_AGE") ->
     rawConfig stringToInteger env !! "CGN_UPPER_BOUND_AGE"
     = Some (VNumber 36)
     /\ ~ In "CGN_UPPER_BOUND_AGE"
            (errorsOf (errorOrConfig stringToInteger env))
     /\ forall c, errorOrConfig stringToInteger env = Right c ->
                  CGN_UPPER_BOUND_AGE c = 36%Z)
  /\ (notAnInteger stringToInteger (env !! "EYCA_UPPER_BOUND_AGE") ->
        rawConfig stringToInteger env !! "EYCA_UPPER_BOUND_AGE"
        = Some (VNumber 31)
        /\ ~ In "EYCA_UPPER_BOUND_AGE"
               (errorsOf (errorOrConfig stringToInteger env))
        /\ forall c, errorOrConfig stringToInteger env = Right c ->
                     EYCA_UPPER_BOUND_AGE c = 31%Z)
  /\ (notAnInteger stringToInteger (env !! "OTP_TTL_IN_SECONDS") ->
        rawConfig stringToInteger env !! "OTP_TTL_IN_SECONDS"
        = Some (VNumber 600)
        /\ ~ In "OTP_TTL_IN_SECONDS"
               (errorsOf (errorOrConfig stringToInteger env))
        /\ forall c, errorOrConfig stringToInteger env = Right c ->
                     OTP_TTL_IN_SECONDS c = 600%Z)
  /\ ((exists e, getConfigOrThrow stringToInteger readableReport env = Throw e)
      <-> exists errors, errorOrConfig stringToInteger env = Left errors)
  /\ (forall c,
        getConfigOrThrow stringToInteger readableReport env = Return c
        <-> errorOrConfig stringToInteger env = Right c).
Proof.
  destruct (rawConfig_numbers env) as (Hcgn & Heyca & Hotp).
  split; [|split; [|split; [|split]]].
  - intros Hnot.
    destruct (default_kept env "CGN_UPPER_BOUND_AGE" 36
                (or_introl eq_refl) Hcgn ltac:(lia) Hnot)
      as (Hraw & Hno & Hreq).
    split; [exact Hraw|]. split; [exact Hno|].
    intros c Hc. apply IConfig_decode_numbers in Hc as (H & _ & _).
    congruence.
  - intros Hnot.
    destruct (default_kept env "EYCA_UPPER_BOUND_AGE" 31
                (or_intror (or_introl eq_refl)) Heyca ltac:(lia) Hnot)
      as (Hraw & Hno & Hreq).
    split; [exact Hraw|]. split; [exact Hno|].
    intros c Hc. apply IConfig_decode_numbers in Hc as (_ & H & _).
    congruence.
  - intros Hnot.
    destruct (default_kept env "OTP_TTL_IN_SECONDS" 600
                (or_intror (or_intror eq_refl)) Hotp ltac:(lia) Hnot)
      as (Hraw & Hno & Hreq).
    split; [exact Hraw|]. split; [exact Hno|].
    intros c Hc. apply IConfig_decode_numbers in Hc as (_ & _ & H).
    congruence.
  - unfold getConfigOrThrow.
    destruct (errorOrConfig stringToInteger env) as [errors|c].
    + split; eauto.
    + split; intros [x Hx]; discriminate.
  - intros c. unfold getConfigOrThrow.
    destruct (errorOrConfig stringToInteger env) as [errors|c'].
    + split; discriminate.
    + split; congruence.
Qed.

End Configuration.

Section ConfigurationScenarios.

Import Config.

Lemma config_defaults_and_throw_witness :
  exists c,
    getConfigOrThrow Samples.decimal Samples.report Samples.garbledEnv
    = Return c
    /\ CGN_UPPER_BOUND_AGE c = 36%Z
    /\ EYCA_UPPER_BOUND_AGE c = 31%Z
    /\ OTP_TTL_IN_SECONDS c = 600%Z.
Proof.
  destruct (config_defaults_and_throw Samples.decimal Samples.report
              Samples.garbledEnv) as (Hcgn & Heyca & Hotp & _ & Hret).
  eexists. split; [apply Hret; vm_compute; reflexivity|].
  split; [|split].
  - apply Hcgn; vm_compute; reflexivity.
  - apply Heyca; vm_compute; reflexivity.
  - apply Hotp; vm_compute; reflexivity.
Defined.

(** A variable that is the text of an integer is used as it is. *)
Example config_keeps_integer :
  CGN_UPPER_BOUND_AGE
  <$> match
        getConfigOrThrow Samples.decimal Samples.report
          (<["CGN_UPPER_BOUND_AGE" := "40"]> Samples.minimalEnv)
      with
      | Return c => Some c
      | Throw _ => None
      end
  = Some 40%Z.
Proof. vm_compute. reflexivity. Qed.

(** A negative integer is no default case: the validation rejects it. *)
Example config_rejects_negative :
  getConfigOrThrow Samples.decimal Samples.report
    (<["CGN_UPPER_BOUND_AGE" := "-5"]> Samples.minimalEnv)
  = Throw (mkError "Invalid configuration: CGN_UPPER_BOUND_AGE").
Proof. vm_compute. reflexivity. Qed.

Example config_missing_required :
  getConfigOrThrow Samples.decimal Samples.report
    (delete "REDIS_URL" Samples.minimalEnv)
  = Throw (mkError "Invalid configuration: REDIS_URL").
Proof. vm_compute. reflexivity. Qed.

End ConfigurationScenarios.

(** ** Delete all versions *)

Section DeleteAllVersions.

Import Errors DeleteEycaActivity.

Variable Card : Type.

Lemma calledTimes_deleteVersion (l : list nat) :
  calledTimes isDeleteVersion (List.map DeleteVersion l) = length l.
Proof.
  unfold calledTimes. induction l as [|n l IH]; cbn; [reflexivity|].
  f_equal. exact IH.
Qed.

(** The loop stops at the first delete that fails. *)
Lemma deleteUntilFailure_aborts (model : UserEycaCardModel Card) i cards k c e :
  cards !! k = Some c ->
  deleteVersion model (i + k) c = Left e ->
  (forall j c', (j < k)%nat -> cards !! j = Some c' ->
     exists v, deleteVersion model (i + j) c' = Right v) ->
  deleteUntilFailure model i cards
  = (List.map DeleteVersion (seq i (S k)), Left e).
Proof.
  revert i k. induction cards as [|c0 cards IH]; intros i k Hk He Hbefore.
  - discriminate Hk.
  - destruct k as [|k]; cbn in Hk.
    + injection Hk as ->. rewrite Nat.add_0_r in He.
      cbn [deleteUntilFailure]. unfold call, ret, Host.bind.
      rewrite He. reflexivity.
    + destruct (Hbefore 0%nat c0 ltac:(lia) eq_refl) as (v & Hv).
      rewrite Nat.add_0_r in Hv.
      cbn [deleteUntilFailure]. unfold call, Host.bind.
      rewrite Hv, (IH (S i) k Hk).
      * reflexivity.
      * rewrite <- He. f_equal. lia.
      * intros j c' Hj Hc'.
        destruct (Hbefore (S j) c' ltac:(lia) Hc') as (v' & Hv').
        exists v'. rewrite <- Hv'. f_equal. lia.
Qed.

(** Without a failing delete the loop goes through all the records. *)
Lemma deleteUntilFailure_completes (model : UserEycaCardModel Card) i cards :
  (forall j c', cards !! j = Some c' ->
     exists v, deleteVersion model (i + j) c' = Right v) ->
  deleteUntilFailure model i cards
  = (List.map DeleteVersion (seq i (length cards)), Right tt).
Proof.
  revert i. induction cards as [|c0 cards IH]; intros i Hall.
  - reflexivity.
  - destruct (Hall 0%nat c0 eq_refl) as (v & Hv).
    rewrite Nat.add_0_r in Hv.
    cbn [deleteUntilFailure]. unfold call, Host.bind.
    rewrite Hv, (IH (S i)).
    + reflexivity.
    + intros j c' Hc'. destruct (Hall (S j) c' Hc') as (v' & Hv').
      exists v'. rewrite <- Hv'. f_equal. lia.
Qed.

Lemma deleteAnswers_lookup (model : UserEycaCardModel Card) cards k r :
  deleteAnswers model cards !! k = Some r
  <-> exists c, cards !! k = Some c /\ deleteVersion model k c = r.
Proof.
  unfold deleteAnswers. rewrite list_lookup_imap.
  destruct (cards !! k) as [c|]; cbn.
  - split; [intros H; injection H as <-; eauto|].
    intros (c' & Hc' & <-). congruence.
  - split; [discriminate | intros (c' & Hc' & _); discriminate].
Qed.

Lemma handler_on_records (model : UserEycaCardModel Card) user cards :
  findAll model user = Right cards ->
  getDeleteEycaActivityHandler model (Right user)
  = ((FindAll user :: fst (deleteUntilFailure model 0 cards))%list,
     match snd (deleteUntilFailure model 0 cards) with
     | Left e => FAILURE (message e)
     | Right _ => SUCCESS
     end).
Proof.
  intros Hfound.
  unfold getDeleteEycaActivityHandler, call, ret, Host.bind.
  rewrite Hfound.
  destruct (deleteUntilFailure model 0 cards) as [es [e|[]]]; cbn;
    rewrite app_nil_r; reflexivity.
Qed.


End DeleteAllVersions.

Section DeleteEycaTests.

Import Errors DeleteEycaActivity DeleteEycaActivity.Tests.


(** The results the tests of the repository expect on their models. *)
Example findAll_failure_result :
  result (getDeleteEycaActivityHandler findAllFailureMock (Right aFiscalCode))
  = FAILURE "Cannot retrieve data".
Proof. reflexivity. Qed.

Example deleteVersion_failure_result :
  result
    (getDeleteEycaActivityHandler deleteVersionFailureMock (Right aFiscalCode))
  = FAILURE "Cannot delete version".
Proof. reflexivity. Qed.

Example all_deleted_result :
  result (getDeleteEycaActivityHandler allDeletedMock (Right aFiscalCode))
  = SUCCESS.
Proof. reflexivity. Qed.

Example malformed_input_result :
  getDeleteEycaActivityHandler allDeletedMock
    (Left (mkError "value [undefined] at [root.fiscalCode]"))
  = ([], FAILURE "value [undefined] at [root.fiscalCode]").
Proof. reflexivity. Qed.

End DeleteEycaTests.

(** * Further properties of the code *)

(** ** Strings *)

Section StringFacts.

Lemma length_append (a b : string) :
  String.length (a +:+ b) = (String.length a + String.length b)%nat.
Proof.
  induction a as [|x a IH]; [reflexivity|].
  change (S (String.length (a +:+ b))
          = S (String.length a + String.length b)).
  f_equal; exact IH.
Qed.

Lemma length_String (x : ascii) (a : string) :
  String.length (String x a) = S (String.length a).
Proof. reflexivity. Qed.

Lemma append_cancel_r (a b suffix : string) :
  a +:+ suffix = b +:+ suffix -> a = b.
Proof.
  revert b. induction a as [|x a IH]; intros [|y b] H.
  - reflexivity.
  - apply (f_equal String.length) in H.
    rewrite !length_append, length_String in H.
    change (String.length EmptyString) with 0%nat in H. lia.
  - apply (f_equal String.length) in H.
    rewrite !length_append, length_String in H.
    change (String.length EmptyString) with 0%nat in H. lia.
  - injection H as -> H. f_equal. apply IH. exact H.
Qed.

End StringFacts.

(** ** The failure classifier, further *)

Section FailureClassifierMore.

Import Errors.

(** X1.  Classifying an error as transient and reporting it always
    throws, the error thrown carrying the classified reason; classifying
    it as permanent and reporting it always returns the FAILURE result with
    the classified reason. *)
Theorem trackFailure_after_classifying
  (logPrefix : string) (err : Js.Error) (customReason : option string) :
  snd (trackFailure logPrefix (toTransientFailure err customReason))
  = Throw (mkError (reason (toTransientFailure err customReason)))
  /\ snd (trackFailure logPrefix (toPermanentFailure err customReason))
     = Return (FAILURE (reason (toPermanentFailure err customReason)))
  /\ reason (toTransientFailure err customReason)
     = "TRANSIENT FAILURE|"
       +:+ match customReason with
           | Some custom => "ERROR=" +:+ custom +:+ " DETAIL=" +:+ message err
           | None => "ERROR=" +:+ message err
           end
  /\ reason (toPermanentFailure err customReason)
     = "PERMANENT FAILURE|"
       +:+ match customReason with
           | Some custom => "ERROR=" +:+ custom +:+ " DETAIL=" +:+ message err
           | None => "ERROR=" +:+ message err
           end.
Proof. destruct customReason; repeat split. Qed.

(** X2.  Whatever the failure, [trackFailure] records one telemetry
    exception and then one error log line, both with the same text: the
    log prefix, a marker and the reason.  The marker has FATAL, and the
    telemetry flag [fatal] is "true", exactly when the call returns; the
    flag is "false" exactly when the call throws. *)
Theorem trackFailure_telemetry (logPrefix : string) (f : Failure) :
  exists t line,
    fst (trackFailure logPrefix f) = [TrackException t; LogError line]
    /\ exception t = mkError line
    /\ isSuccess t = false
    /\ detail t = kind_toString (kind f)
    /\ (fatal t = "true"
        <-> exists r, snd (trackFailure logPrefix f) = Return r)
    /\ (fatal t = "false"
        <-> exists e, snd (trackFailure logPrefix f) = Throw e)
    /\ (line = logPrefix +:+ "|FATAL|PERMANENT_ERROR=" +:+ reason f
        <-> exists r, snd (trackFailure logPrefix f) = Return r)
    /\ (line = logPrefix +:+ "|TRANSIENT_ERROR=" +:+ reason f
        <-> exists e, snd (trackFailure logPrefix f) = Throw e).
Proof.
  assert (Hmarker :
            logPrefix +:+ "|FATAL|PERMANENT_ERROR=" +:+ reason f
            <> logPrefix +:+ "|TRANSIENT_ERROR=" +:+ reason f).
  { apply append_suffix_differs. discriminate. }
  destruct f as [[] r]; cbn in *; do 2 eexists;
    (split; [reflexivity|]); cbn;
    repeat split; try discriminate; eauto;
    try (intros [x Hx]; discriminate);
    try (intros H; exfalso; congruence).
Qed.

(** X3.  The reason of a failure classified transient starts with
    "TRANSIENT FAILURE|ERROR=", the reason of one classified permanent with
    "PERMANENT FAILURE|ERROR=", so the two never coincide, whatever the
    errors and custom reasons. *)
Theorem classified_reasons_disjoint
  (err err' : Js.Error) (customReason customReason' : option string) :
  (exists rest,
     reason (toTransientFailure err customReason)
     = "TRANSIENT FAILURE|ERROR=" +:+ rest)
  /\ (exists rest,
        reason (toPermanentFailure err' customReason')
        = "PERMANENT FAILURE|ERROR=" +:+ rest)
  /\ reason (toTransientFailure err customReason)
     <> reason (toPermanentFailure err' customReason').
Proof.
  split; [|split].
  - destruct customReason; eexists; reflexivity.
  - destruct customReason'; eexists; reflexivity.
  - intros H. discriminate H.
Qed.

(** X4.  The reason does not tell whether a custom reason was given: an
    error classified with a custom reason gives the same failure as the
    error whose message is the custom reason, " DETAIL=" and the message,
    classified without one. *)
Theorem custom_reason_not_recoverable (err : Js.Error) (customReason : string) :
  toTransientFailure err (Some customReason)
  = toTransientFailure
      (mkError (customReason +:+ " DETAIL=" +:+ message err)) None
  /\ toPermanentFailure err (Some customReason)
     = toPermanentFailure
         (mkError (customReason +:+ " DETAIL=" +:+ message err)) None.
Proof. split; reflexivity. Qed.

End FailureClassifierMore.

(** ** Instance identifiers, further *)

Section RevokeIds.

(** X5.  [makeRevokeCgnOrchestratorId] gives different users different
    ids, and no user's id is the user's fiscal code itself. *)
Theorem makeRevokeCgnOrchestratorId_injective (user user' : FiscalCode) :
  (makeRevokeCgnOrchestratorId user = makeRevokeCgnOrchestratorId user' ->
   user = user')
  /\ makeRevokeCgnOrchestratorId user <> user
  /\ String.length (makeRevokeCgnOrchestratorId user)
     = (String.length user + 7)%nat.
Proof.
  unfold makeRevokeCgnOrchestratorId. split; [|split].
  - apply append_cancel_r.
  - intros H. apply (f_equal String.length) in H.
    rewrite length_append in H.
    change (String.length "-REVOKE") with 7%nat in H. lia.
  - rewrite length_append. reflexivity.
Qed.

Lemma makeRevokeCgnOrchestratorId_injective_witness :
  makeRevokeCgnOrchestratorId "RODFDS82S10H501T"
  = makeRevokeCgnOrchestratorId "RODFDS82S10H501T"
  /\ "RODFDS82S10H501T" = "RODFDS82S10H501T".
Proof.
  split; [reflexivity|].
  apply (makeRevokeCgnOrchestratorId_injective
           "RODFDS82S10H501T" "RODFDS82S10H501T").
  reflexivity.
Defined.

End RevokeIds.

(** ** The daily sweep, further *)

Section DailySweepMore.

Import UpdateExpiredCgn Trace.

Lemma count_app which (es es' : list Event) :
  count which (es ++ es')%list = (count which es + count which es')%nat.
Proof. unfold count. rewrite List.filter_app, length_app. reflexivity. Qed.

Lemma count_forEachUser env logPrefix user :
  count isTerminate (events (forEachUser env logPrefix user)) = 2%nat
  /\ count isStartNew (events (forEachUser env logPrefix user)) = 1%nat.
Proof.
  rewrite forEachUser_events.
  destruct (startNew _ _ _ _); split; reflexivity.
Qed.

Lemma count_callbacks env logPrefix users :
  count isTerminate
    (List.concat
       (List.map snd
          (List.map
             (fun u => (u, events (forEachUser env logPrefix u))) users)))
  = (2 * length users)%nat
  /\ count isStartNew
       (List.concat
          (List.map snd
             (List.map
                (fun u => (u, events (forEachUser env logPrefix u))) users)))
     = length users.
Proof.
  induction users as [|u users [IHt IHs]]; [split; reflexivity|].
  cbn [List.map List.concat snd length].
  rewrite !count_app, IHt, IHs.
  destruct (count_forEachUser env logPrefix u) as [-> ->].
  split; lia.
Qed.

(** X6.  When the query succeeds with n users, the sweep logs that it
    processes n cards, takes the client and launches one callback per
    entry of the result, in the order of the result and with repetitions
    if a user is listed twice; in all, [startNew] is called n times, once
    per entry, whether the starts succeed or not.  With an empty result
    nothing is started. *)
Theorem sweep_call_counts
  (env : Env) (tableName logPrefix : string) (users : list FiscalCode) :
  getExpiredCgnUsers env tableName (today env) = Right users ->
  main (getUpdateExpiredCgnHandler env tableName logPrefix)
  = [ GetExpiredCgnUsers tableName (today env);
      Log Info
        (logPrefix +:+ "|Processing " +:+ pretty (length users)
         +:+ " expired CGNs");
      GetClient ]
  /\ List.map fst (perUser (getUpdateExpiredCgnHandler env tableName logPrefix))
     = users
  /\ count isStartNew
       (allEvents (getUpdateExpiredCgnHandler env tableName logPrefix))
     = length users.
Proof.
  intros Hquery. unfold getUpdateExpiredCgnHandler, allEvents.
  rewrite Hquery. cbn [main perUser].
  split; [reflexivity|]. split.
  - rewrite List.map_map. cbn. apply List.map_id.
  - rewrite !count_app.
    destruct (count_callbacks env logPrefix users) as [_ ->].
    reflexivity.
Qed.

Lemma sweep_call_counts_witness :
  count isStartNew
    (allEvents
       (getUpdateExpiredCgnHandler MoreSamples.threeUsersEnv
          "cgnexpirations" "UpdateExpiredCgnHandler"))
  = 3%nat.
Proof.
  destruct (sweep_call_counts MoreSamples.threeUsersEnv "cgnexpirations"
              "UpdateExpiredCgnHandler" MoreSamples.threeUsers eq_refl)
    as (_ & _ & Hs).
  exact Hs.
Defined.

Lemma callback_of_run env tableName logPrefix e :
  In e (allEvents (getUpdateExpiredCgnHandler env tableName logPrefix)) ->
  In e (main (getUpdateExpiredCgnHandler env tableName logPrefix))
  \/ exists users user,
       getExpiredCgnUsers env tableName (today env) = Right users
       /\ In user users
       /\ In e (events (forEachUser env logPrefix user)).
Proof.
  unfold allEvents. rewrite in_app_iff. intros [Hmain | Hcb]; [left; exact Hmain|].
  right. apply in_concat in Hcb as (l & Hl & He).
  apply in_map_iff in Hl as ([u tr] & <- & Hin).
  unfold getUpdateExpiredCgnHandler in Hin.
  destruct (getExpiredCgnUsers env tableName (today env)) as [err|users];
    [destruct Hin|].
  cbn [perUser] in Hin. apply in_map_iff in Hin as (user & Heq & Huser).
  injection Heq as <- <-.
  exists users, user. repeat split; assumption.
Qed.

(** X7.  Whatever the host answers, every orchestration the sweep starts
    is "UpdateCgnOrchestrator" with the EXPIRED status, for a user of the
    result set and under the id [makeUpdateCgnOrchestratorId] gives for
    that user and EXPIRED; the sweep never reads the status of an instance
    or the card of a user. *)
Theorem sweep_touches_listed_users_only
  (env : Env) (tableName logPrefix : string) (e : Event) :
  In e (allEvents (getUpdateExpiredCgnHandler env tableName logPrefix)) ->
  match e with
  | StartNew orchestratorName instanceId input =>
      orchestratorName = "UpdateCgnOrchestrator"
      /\ newStatus input = CgnExpiredStatus
      /\ instanceId = makeUpdateCgnOrchestratorId (fiscalCode input) EXPIRED
      /\ exists users,
           getExpiredCgnUsers env tableName (today env) = Right users
           /\ In (fiscalCode input) users
  | GetStatus _ | FindLastVersionByModelId _ | CheckUpdateCgnIsRunning _ _
  | FindAll _ | DeleteVersion _ => False
  | _ => True
  end.
Proof.
  intros Hin. apply callback_of_run in Hin as [Hmain | (users & user & Hq & Hu & He)].
  - unfold getUpdateExpiredCgnHandler in Hmain.
    destruct (getExpiredCgnUsers env tableName (today env));
      cbn in Hmain; intuition (subst; exact I).
  - rewrite forEachUser_events in He.
    destruct He as [<- | [<- | [<- | [<- | He]]]]; try exact I.
    + cbn. repeat split. exists users. auto.
    + destruct (startNew _ _ _ _); [|destruct He].
      destruct He as [<- | []]. exact I.
Qed.

(** X26.  For a result of n users the sweep makes 2n calls of
    [terminateOrchestratorTask], and each is for a user of the result set,
    on the ACTIVATED or the REVOKED status, with the fixed reason. *)
Theorem sweep_terminations
  (env : Env) (tableName logPrefix : string) (users : list FiscalCode) :
  getExpiredCgnUsers env tableName (today env) = Right users ->
  count isTerminate
    (allEvents (getUpdateExpiredCgnHandler env tableName logPrefix))
  = (2 * length users)%nat
  /\ forall instanceId reason,
       In (Terminate instanceId reason)
         (allEvents (getUpdateExpiredCgnHandler env tableName logPrefix)) ->
       reason = "An highest priority CGN update orchestrator needs to start"
       /\ exists user,
            In user users
            /\ (instanceId = makeUpdateCgnOrchestratorId user ACTIVATED
                \/ instanceId = makeUpdateCgnOrchestratorId user REVOKED).
Proof.
  intros Hquery. split.
  - unfold getUpdateExpiredCgnHandler, allEvents.
    rewrite Hquery. cbn [main perUser]. rewrite !count_app.
    destruct (count_callbacks env logPrefix users) as [-> _]. reflexivity.
  - intros instanceId reason Hin.
    apply callback_of_run in Hin as [Hmain | (users' & user & Hq & Hu & He)].
    + unfold getUpdateExpiredCgnHandler in Hmain. rewrite Hquery in Hmain.
      cbn in Hmain. intuition discriminate.
    + rewrite Hquery in Hq. injection Hq as <-.
      rewrite forEachUser_events in He.
      destruct He as [He | [He | [He | [He | He]]]]; try discriminate He.
      * injection He as <- <-. split; [reflexivity|]. exists user. auto.
      * injection He as <- <-. split; [reflexivity|]. exists user. auto.
      * destruct (startNew _ _ _ _); [|destruct He].
        destruct He as [He | []]. discriminate He.
Qed.

Lemma sweep_terminations_witness :
  count isTerminate
    (allEvents
       (getUpdateExpiredCgnHandler MoreSamples.threeUsersEnv "cgnexpirations"
          "UpdateExpiredCgnHandler"))
  = 6%nat.
Proof.
  destruct (sweep_terminations MoreSamples.threeUsersEnv "cgnexpirations"
              "UpdateExpiredCgnHandler" MoreSamples.threeUsers eq_refl)
    as (Hcount & _).
  exact Hcount.
Defined.

Lemma sweep_touches_listed_users_only_witness :
  exists users,
    getExpiredCgnUsers Samples.sweepEnv "cgnexpirations" "2024-03-01"
    = Right users
    /\ In "RODFDS82S10H501T" users.
Proof.
  destruct (sweep_touches_listed_users_only Samples.sweepEnv "cgnexpirations"
              "UpdateExpiredCgnHandler"
              (StartNew "UpdateCgnOrchestrator" "RODFDS82S10H501T-REVOKE"
                 {| fiscalCode := "RODFDS82S10H501T";
                    newStatus := CgnExpiredStatus |}))
    as (_ & _ & _ & users & Hq & Hin).
  - cbn. tauto.
  - exists users. split; [exact Hq | exact Hin].
Defined.

(** X8.  The lines the callback of a user logs show no more of the
    fiscal code than its first six characters: two users that agree on
    these, whose starts fail with the same message or both succeed, leave
    the same log lines. *)
Theorem sweep_logs_first_six_characters
  (env env' : Env) (logPrefix : string) (user user' : FiscalCode) :
  substr0 6 user = substr0 6 user' ->
  startError
    (startNew (client env) "UpdateCgnOrchestrator"
       (makeUpdateCgnOrchestratorId user EXPIRED)
       {| fiscalCode := user; newStatus := CgnExpiredStatus |})
  = startError
      (startNew (client env') "UpdateCgnOrchestrator"
         (makeUpdateCgnOrchestratorId user' EXPIRED)
         {| fiscalCode := user'; newStatus := CgnExpiredStatus |}) ->
  List.filter isLog (events (forEachUser env logPrefix user))
  = List.filter isLog (events (forEachUser env' logPrefix user')).
Proof.
  intros Hsix Herr. rewrite !forEachUser_events. cbn [List.filter isLog].
  rewrite Hsix.
  destruct (startNew (client env) _ _ _), (startNew (client env') _ _ _);
    cbn in Herr |- *; try discriminate; [|reflexivity].
  injection Herr as ->. reflexivity.
Qed.

Lemma sweep_logs_first_six_characters_witness :
  List.filter isLog
    (events (forEachUser Samples.sweepEnv "UpdateExpiredCgnHandler"
               "RODFDS82S10H501T"))
  = List.filter isLog
      (events (forEachUser Samples.sweepEnv "UpdateExpiredCgnHandler"
                 "RODFDS00A00A000A")).
Proof.
  apply (sweep_logs_first_six_characters Samples.sweepEnv Samples.sweepEnv
           "UpdateExpiredCgnHandler" "RODFDS82S10H501T" "RODFDS00A00A000A");
    reflexivity.
Defined.

(** X9.  What the sweep does for a user depends on that user and on the
    answer of the host to that user's start alone: with another result
    set that lists the user, other answers to [terminate] and to the
    starts of other users, the calls made for the user are the same. *)
Theorem sweep_users_isolated
  (env env' : Env) (tableName tableName' logPrefix : string)
  (users users' : list FiscalCode) (user : FiscalCode) (calls : list Event) :
  getExpiredCgnUsers env tableName (today env) = Right users ->
  getExpiredCgnUsers env' tableName' (today env') = Right users' ->
  In user users' ->
  startNew (client env) "UpdateCgnOrchestrator"
    (makeUpdateCgnOrchestratorId user EXPIRED)
    {| fiscalCode := user; newStatus := CgnExpiredStatus |}
  = startNew (client env') "UpdateCgnOrchestrator"
      (makeUpdateCgnOrchestratorId user EXPIRED)
      {| fiscalCode := user; newStatus := CgnExpiredStatus |} ->
  In (user, calls) (perUser (getUpdateExpiredCgnHandler env tableName logPrefix)) ->
  In (user, calls)
    (perUser (getUpdateExpiredCgnHandler env' tableName' logPrefix)).
Proof.
  intros Hq Hq' Hin' Hstart Hin.
  unfold getUpdateExpiredCgnHandler in *. rewrite Hq in Hin. rewrite Hq'.
  cbn [perUser] in *.
  apply in_map_iff in Hin as (u & Heq & _). injection Heq as -> <-.
  apply in_map_iff. exists user. split; [|exact Hin'].
  rewrite !forEachUser_events, Hstart. reflexivity.
Qed.

Lemma sweep_users_isolated_witness :
  In ("RODFDS82S10H501T",
      events (forEachUser Samples.sweepEnv "UpdateExpiredCgnHandler"
                "RODFDS82S10H501T"))
    (perUser
       (getUpdateExpiredCgnHandler
          {| today := "2024-03-02";
             getExpiredCgnUsers := fun _ _ => Right MoreSamples.threeUsers;
             client := Samples.busyClient |}
          "cgnexpirations" "UpdateExpiredCgnHandler")).
Proof.
  apply (sweep_users_isolated Samples.sweepEnv _ "cgnexpirations"
           "cgnexpirations" "UpdateExpiredCgnHandler"
           [Samples.aFiscalCode] MoreSamples.threeUsers);
    try reflexivity.
  - left. reflexivity.
  - left. reflexivity.
Defined.

End DailySweepMore.

(** ** The status-change request handler, further *)

Section UpsertMore.

Import UpsertCgnStatus Trace.

Variable codec : CgnStatusUpsertRequest -> bool.

(** X10.  A request the codec accepts is answered with the internal
    error "Cannot retrieve CGN infos for this user" when the store fails
    and with NotFound when the user has no card; in both cases the handler
    stops after reading the store: it neither asks whether an update is
    running nor starts anything. *)
Theorem handler_store_errors
  (env : Env) (logPrefix : string) (user : FiscalCode)
  (request : CgnStatusUpsertRequest) :
  codec request = true ->
  (forall e, findLastVersionByModelId env user = Left e ->
     UpsertCgnStatusHandler codec env logPrefix user request
     = ([GetClient; FindLastVersionByModelId user],
        ResponseErrorInternal "Cannot retrieve CGN infos for this user"))
  /\ (findLastVersionByModelId env user = Right None ->
        UpsertCgnStatusHandler codec env logPrefix user request
        = ([GetClient; FindLastVersionByModelId user],
           ResponseErrorNotFound "Not Found" "User's CGN status not found")).
Proof.
  intros Hc. rewrite (handler_past_guard codec _ _ _ _ Hc).
  split; [intros e ->| intros ->]; reflexivity.
Qed.

(** X11.  When [checkUpdateCgnIsRunning] answers with a response (an
    update is already running, or the check failed), the handler gives
    that very response back and starts nothing. *)
Theorem handler_returns_check_response
  (env : Env) (logPrefix : string) (user : FiscalCode)
  (request : CgnStatusUpsertRequest) (userCgn : UserCgn) (response : Response) :
  codec request = true ->
  findLastVersionByModelId env user = Right (Some userCgn) ->
  checkUpdateCgnIsRunning env user (toCgnStatus (now env) request)
  = Left response ->
  result (UpsertCgnStatusHandler codec env logPrefix user request) = response
  /\ count isStartNew
       (events (UpsertCgnStatusHandler codec env logPrefix user request))
     = 0%nat
  /\ count isLog
       (events (UpsertCgnStatusHandler codec env logPrefix user request))
     = 0%nat.
Proof.
  intros Hc Hfound Hcheck. rewrite (handler_past_guard codec _ _ _ _ Hc).
  rewrite Hfound. cbn zeta. rewrite Hcheck. repeat split.
Qed.

(** X12.  When the request is accepted, the user has a card and no
    update is running, the handler calls [startNew] once, for
    "UpdateCgnOrchestrator" under the user's REVOKED instance id.  If the
    start succeeds the answer is a redirect to "/api/v1/cgn/status/" and
    the fiscal code, carrying that instance id; if it fails the answer is
    the internal error "Cannot start UpdateCgnOrchestrator" and the error
    is logged with its message. *)
Theorem handler_start_outcome
  (env : Env) (logPrefix : string) (user : FiscalCode)
  (request : CgnStatusUpsertRequest) (userCgn : UserCgn) :
  codec request = true ->
  findLastVersionByModelId env user = Right (Some userCgn) ->
  checkUpdateCgnIsRunning env user (toCgnStatus (now env) request)
  = Right tt ->
  List.filter isStartNew
    (events (UpsertCgnStatusHandler codec env logPrefix user request))
  = [ StartNew "UpdateCgnOrchestrator"
        (makeUpdateCgnOrchestratorId user REVOKED)
        {| fiscalCode := user;
           newStatus := toCgnStatus (now env) request |} ]
  /\ (forall started,
        startNew (client env) "UpdateCgnOrchestrator"
          (makeUpdateCgnOrchestratorId user REVOKED)
          {| fiscalCode := user; newStatus := toCgnStatus (now env) request |}
        = Resolves started ->
        result (UpsertCgnStatusHandler codec env logPrefix user request)
        = ResponseSuccessRedirectToResource
            {| id := makeUpdateCgnOrchestratorId user REVOKED |}
            ("/api/v1/cgn/status/" +:+ user)
            {| id := makeUpdateCgnOrchestratorId user REVOKED |}
        /\ count isLog
             (events (UpsertCgnStatusHandler codec env logPrefix user request))
           = 0%nat)
  /\ (forall e,
        startNew (client env) "UpdateCgnOrchestrator"
          (makeUpdateCgnOrchestratorId user REVOKED)
          {| fiscalCode := user; newStatus := toCgnStatus (now env) request |}
        = Rejects e ->
        result (UpsertCgnStatusHandler codec env logPrefix user request)
        = ResponseErrorInternal "Cannot start UpdateCgnOrchestrator"
        /\ List.filter isLog
             (events (UpsertCgnStatusHandler codec env logPrefix user request))
           = [ Log Error
                 (logPrefix +:+ "|Cannot start UpdateCgnOrchestrator|ERROR="
                  +:+ message (toError e)) ]).
Proof.
  intros Hc Hfound Hcheck. rewrite (handler_past_guard codec _ _ _ _ Hc).
  rewrite Hfound. cbn zeta. rewrite Hcheck.
  split; [|split].
  - destruct (startNew _ _ _ _); reflexivity.
  - intros started ->. split; reflexivity.
  - intros e ->. split; reflexivity.
Qed.

(** X13.  Whatever the request and the answers of the collaborators, the
    handler makes its calls in one fixed order, each at most once: it takes
    the client, reads the store, asks whether an update is running, starts
    the orchestration, logs the error of the start; it stops at some point
    of this sequence.  So nothing is started before the store was read and
    the running check was made, and at most one orchestration is started
    per request. *)
Theorem handler_call_order
  (env : Env) (logPrefix : string) (user : FiscalCode)
  (request : CgnStatusUpsertRequest) :
  exists line,
    events (UpsertCgnStatusHandler codec env logPrefix user request)
    = take
        (length
           (events (UpsertCgnStatusHandler codec env logPrefix user request)))
        [ GetClient;
          FindLastVersionByModelId user;
          CheckUpdateCgnIsRunning user (toCgnStatus (now env) request);
          StartNew "UpdateCgnOrchestrator"
            (makeUpdateCgnOrchestratorId user REVOKED)
            {| fiscalCode := user;
               newStatus := toCgnStatus (now env) request |};
          Log Error line ]
    /\ (1 <= length
               (events
                  (UpsertCgnStatusHandler codec env logPrefix user request)))%nat
    /\ (count isStartNew
          (events (UpsertCgnStatusHandler codec env logPrefix user request))
        <= 1)%nat.
Proof.
  destruct (codec request) eqn:Hc.
  - rewrite (handler_past_guard codec _ _ _ _ Hc).
    destruct (findLastVersionByModelId env user) as [e|[u|]];
      try (exists EmptyString; cbn; repeat split; lia).
    cbn zeta.
    destruct (checkUpdateCgnIsRunning env user _) as [response|[]];
      try (exists EmptyString; cbn; repeat split; lia).
    destruct (startNew _ _ _ _) as [e|started].
    + eexists. cbn. repeat split; lia.
    + exists EmptyString. cbn. repeat split; lia.
  - rewrite (handler_rejects_at_guard codec _ _ _ _ Hc).
    exists EmptyString. cbn. repeat split; lia.
Qed.

(** X14.  The handler starts an orchestration exactly when the codec
    accepts the request, the store gives a card for the user and
    [checkUpdateCgnIsRunning] answers that nothing is running; in every
    other case it starts none. *)
Theorem handler_starts_iff
  (env : Env) (logPrefix : string) (user : FiscalCode)
  (request : CgnStatusUpsertRequest) :
  count isStartNew
    (events (UpsertCgnStatusHandler codec env logPrefix user request))
  = 1%nat
  <-> codec request = true
      /\ (exists userCgn,
            findLastVersionByModelId env user = Right (Some userCgn))
      /\ checkUpdateCgnIsRunning env user (toCgnStatus (now env) request)
         = Right tt.
Proof.
  destruct (codec request) eqn:Hc.
  - rewrite (handler_past_guard codec _ _ _ _ Hc).
    destruct (findLastVersionByModelId env user) as [e|[u|]]; cbn.
    + split; [discriminate | intros (_ & (x & Hx) & _); discriminate].
    + destruct (checkUpdateCgnIsRunning env user _) as [response|[]]; cbn.
      * split; [discriminate | intros (_ & _ & H); discriminate].
      * destruct (startNew _ _ _ _); cbn; split; eauto.
    + split; [discriminate | intros (_ & (x & Hx) & _); discriminate].
  - rewrite (handler_rejects_at_guard codec _ _ _ _ Hc). cbn.
    split; [discriminate | intros (H & _); discriminate].
Qed.

End UpsertMore.

Section UpsertMoreScenarios.

Import UpsertCgnStatus Trace.

Lemma handler_store_errors_witness :
  UpsertCgnStatusHandler CgnStatusRevocationRequest_is
    MoreSamples.unknownUserEnv "UpsertCgnStatusHandler" Samples.aFiscalCode
    Samples.aRevocationRequest
  = ([GetClient; FindLastVersionByModelId Samples.aFiscalCode],
     ResponseErrorNotFound "Not Found" "User's CGN status not found").
Proof.
  apply (handler_store_errors CgnStatusRevocationRequest_is
           MoreSamples.unknownUserEnv "UpsertCgnStatusHandler"
           Samples.aFiscalCode Samples.aRevocationRequest eq_refl).
  reflexivity.
Defined.

Lemma handler_returns_check_response_witness :
  result
    (UpsertCgnStatusHandler CgnStatusRevocationRequest_is
       MoreSamples.runningEnv "UpsertCgnStatusHandler" Samples.aFiscalCode
       Samples.aRevocationRequest)
  = ResponseSuccessAccepted.
Proof.
  apply (handler_returns_check_response CgnStatusRevocationRequest_is
           MoreSamples.runningEnv "UpsertCgnStatusHandler"
           Samples.aFiscalCode Samples.aRevocationRequest
           {| userFiscalCode := Samples.aFiscalCode;
              userStatus := CgnPendingStatus |}
           ResponseSuccessAccepted);
    reflexivity.
Defined.

Lemma handler_start_outcome_witness :
  result
    (UpsertCgnStatusHandler CgnStatusRevocationRequest_is
       MoreSamples.refusedStartEnv "UpsertCgnStatusHandler"
       Samples.aFiscalCode Samples.aRevocationRequest)
  = ResponseErrorInternal "Cannot start UpdateCgnOrchestrator"
  /\ List.filter isLog
       (events
          (UpsertCgnStatusHandler CgnStatusRevocationRequest_is
             MoreSamples.refusedStartEnv "UpsertCgnStatusHandler"
             Samples.aFiscalCode Samples.aRevocationRequest))
     = [ Log Error
           "UpsertCgnStatusHandler|Cannot start UpdateCgnOrchestrator|ERROR=quota exceeded" ].
Proof.
  destruct (handler_start_outcome CgnStatusRevocationRequest_is
              MoreSamples.refusedStartEnv "UpsertCgnStatusHandler"
              Samples.aFiscalCode Samples.aRevocationRequest
              {| userFiscalCode := Samples.aFiscalCode;
                 userStatus := CgnPendingStatus |}
              eq_refl eq_refl eq_refl) as (_ & _ & Hfail).
  apply (Hfail (ThrownOther "quota exceeded")). reflexivity.
Defined.

End UpsertMoreScenarios.

(** ** Redis: the replies and the reading tasks *)

Section RedisReplies.

Import RedisStorage.

(** X15.  [integerRepl] gives an error of Redis back as [Left], whatever
    the reply.  Without error and with an expected number, it gives
    [Right(true)] exactly when the reply is that number; without an
    expected number, exactly when the reply is a number.  It never fails
    on a reply of another kind: that is [Right(false)]. *)
Theorem integerRepl_cases (reply : Reply) (expected : Z) :
  (forall e expectedReply,
     integerRepl (Some e) reply expectedReply = Left e)
  /\ (integerRepl None reply (Some expected) = Right true
      <-> reply = ReplyNumber expected)
  /\ (integerRepl None reply None = Right true
      <-> exists n, reply = ReplyNumber n)
  /\ (forall expectedReply,
        integerRepl None reply expectedReply = Right true
        \/ integerRepl None reply expectedReply = Right false).
Proof.
  split; [reflexivity|]. split; [|split].
  - destruct reply as [|s|n]; try (cbn; split; discriminate).
    unfold integerRepl, strictlyDiffers, isNumber.
    destruct (Z.eqb_spec expected n) as [->|Hne]; cbn [negb].
    + split; reflexivity.
    + split; [discriminate | intros H; injection H as ->; congruence].
  - destruct reply as [|s|n]; cbn.
    + split; [discriminate | intros [n Hn]; discriminate].
    + split; [discriminate | intros [n Hn]; discriminate].
    + split; eauto.
  - intros [expected'|]; destruct reply as [|s|n];
      unfold integerRepl, strictlyDiffers, isNumber; auto.
    destruct (expected' =? n)%Z; cbn [negb]; auto.
Qed.

(** X16.  [existsKeyTask] gives [Right(true)] exactly when Redis calls
    back with no error and the number 1; with no error and any other
    reply it gives [Right(false)]; an error of Redis is given back as
    [Left], also when the reply is 1. *)
Theorem existsKeyTask_reply (redisClient : RedisReads) (key : string) :
  (existsKeyTask redisClient key = Right true
   <-> exists_ redisClient key = CallsBack None (ReplyNumber 1))
  /\ (forall reply,
        exists_ redisClient key = CallsBack None reply ->
        reply <> ReplyNumber 1 ->
        existsKeyTask redisClient key = Right false)
  /\ (forall e reply,
        exists_ redisClient key = CallsBack (Some e) reply ->
        existsKeyTask redisClient key = Left e).
Proof.
  unfold existsKeyTask.
  destruct (exists_ redisClient key) as [t | [e|] reply].
  - cbn. repeat split; try discriminate.
  - cbn. repeat split; try discriminate. intros e' reply' H. congruence.
  - destruct reply as [|s|n];
      try (cbn; repeat split; congruence).
    unfold integerRepl, strictlyDiffers, isNumber, tryCatch, Js.chain.
    destruct (Z.eqb_spec 1 n) as [<-|Hne]; cbn [negb].
    + split; [split; reflexivity|]. split.
      * intros reply' H Hne. congruence.
      * intros e reply' H. discriminate H.
    + split; [split; [discriminate | intros H; congruence]|]. split.
      * intros reply' H _. reflexivity.
      * intros e reply' H. discriminate H.
Qed.

Lemma existsKeyTask_reply_witness :
  existsKeyTask MoreSamples.oneKeyRedis "otp" = Right true
  /\ existsKeyTask MoreSamples.oneKeyRedis "other" = Right false
  /\ existsKeyTask MoreSamples.brokenRedis "otp" = Left (mkError "LOADING").
Proof.
  split; [|split].
  - apply (existsKeyTask_reply MoreSamples.oneKeyRedis "otp"). reflexivity.
  - destruct (existsKeyTask_reply MoreSamples.oneKeyRedis "other")
      as (_ & Hother & _).
    apply (Hother (ReplyNumber 0)); [reflexivity | discriminate].
  - destruct (existsKeyTask_reply MoreSamples.brokenRedis "otp")
      as (_ & _ & Herr).
    apply (Herr (mkError "LOADING") (ReplyNumber 1)). reflexivity.
Defined.

(** X17.  [getTask] gives [Right(some(v))] exactly when Redis calls back
    with no error and the string v, and [Right(none)] exactly when it
    calls back with no error and [null]: a missing key is no error.  An
    error of Redis is given back as [Left], whatever the reply. *)
Theorem getTask_reply (redisClient : RedisReads) (key : string) :
  (forall value,
     getTask redisClient key = Right (Some value)
     <-> get redisClient key = CallsBack None (Some value))
  /\ (getTask redisClient key = Right None
      <-> get redisClient key = CallsBack None None)
  /\ (forall e reply,
        get redisClient key = CallsBack (Some e) reply ->
        getTask redisClient key = Left e).
Proof.
  unfold getTask.
  destruct (get redisClient key) as [t | [e|] reply]; cbn.
  - repeat split; try discriminate.
  - repeat split; try discriminate. intros e' reply' H. congruence.
  - unfold fromNullable. repeat split; try congruence.
Qed.

Lemma getTask_reply_witness :
  getTask MoreSamples.oneKeyRedis "otp" = Right (Some "123456")
  /\ getTask MoreSamples.oneKeyRedis "other" = Right None
  /\ getTask MoreSamples.brokenRedis "otp" = Left (mkError "LOADING").
Proof.
  split; [|split].
  - apply (getTask_reply MoreSamples.oneKeyRedis "otp"). reflexivity.
  - apply (getTask_reply MoreSamples.oneKeyRedis "other"). reflexivity.
  - destruct (getTask_reply MoreSamples.brokenRedis "otp") as (_ & _ & Herr).
    apply (Herr (mkError "LOADING") (Some "123456")). reflexivity.
Defined.

(** X18.  When the client throws instead of calling back, each of the
    three tasks gives [Left] of the thrown error ([toError] of what was
    thrown): nothing the client throws leaves a task as an exception. *)
Theorem tasks_catch_client_throws
  (writes : RedisClient) (reads : RedisReads) (key value : string)
  (expirationInSeconds : Z) (errorMsg : option string) (thrown : Thrown) :
  (set writes key value "EX" expirationInSeconds = SetThrows thrown ->
   setWithExpirationTask writes key value expirationInSeconds errorMsg
   = Left (toError thrown))
  /\ (get reads key = Throws thrown ->
      getTask reads key = Left (toError thrown))
  /\ (exists_ reads key = Throws thrown ->
      existsKeyTask reads key = Left (toError thrown)).
Proof.
  unfold setWithExpirationTask, getTask, existsKeyTask.
  repeat split; intros ->; reflexivity.
Qed.

Lemma tasks_catch_client_throws_witness :
  setWithExpirationTask MoreSamples.throwingRedis "otp" "123456" 600 None
  = Left (mkError "connection closed").
Proof.
  apply (tasks_catch_client_throws MoreSamples.throwingRedis
           MoreSamples.oneKeyRedis "otp" "123456" 600 None
           (ThrownOther "connection closed")).
  reflexivity.
Defined.

(** X19.  [falsyResponseToError] keeps a [Left] as it is and turns
    [Right(false)] into [Left] of the given error: its result is
    [Right(true)] only for [Right(true)], never [Right(false)], and
    applying it again, with any error, changes nothing. *)
Theorem falsyResponseToError_cases
  (response : Either Js.Error bool) (error error' : Js.Error) :
  (falsyResponseToError response error = Right true <-> response = Right true)
  /\ falsyResponseToError response error <> Right false
  /\ (forall e, falsyResponseToError (Left e) error = Left e)
  /\ falsyResponseToError (Right false) error = Left error
  /\ falsyResponseToError (falsyResponseToError response error) error'
     = falsyResponseToError response error.
Proof.
  destruct response as [e|[|]]; cbn; repeat split; congruence.
Qed.

End RedisReplies.

(** ** Configuration, further *)

Section ConfigurationMore.

Import Config.

Lemma in_errors_required {A} o key (codec : JsValue -> option A) k :
  In k (errorsOf (required o key codec))
  <-> k = key /\ o !! key ≫= codec = None.
Proof.
  unfold required. destruct (o !! key ≫= codec); cbn.
  - split; [tauto | intros [_ H]; discriminate].
  - split; [intros [<-|[]]; auto | intros [-> _]; auto].
Qed.

Lemma in_errors_optional {A} o key (codec : JsValue -> option A) k :
  In k (errorsOf (optional o key codec))
  <-> k = key /\ exists v, o !! key = Some v /\ codec v = None.
Proof.
  unfold optional. destruct (o !! key) as [v|]; cbn.
  - destruct (codec v) eqn:Hv; cbn.
    + split; [tauto|]. intros (_ & v' & Hv' & Hnone). congruence.
    + split; [intros [<-|[]]; eauto | intros [-> _]; auto].
  - split; [tauto|]. intros (_ & v' & Hv' & _). discriminate.
Qed.

(** A failed validation names at least one property. *)
Lemma ap_names_a_property {A B} (f : Validation (A -> B)) (x : Validation A) :
  (forall es, f = Left es -> es <> []) ->
  (forall es, x = Left es -> es <> []) ->
  forall es, ap f x = Left es -> es <> [].
Proof.
  intros Hf Hx es. destruct f as [es1|g], x as [es2|a]; cbn;
    intros H; try discriminate; injection H as <-; eauto.
  intros Happ. apply app_eq_nil in Happ as [H1 _]. exact (Hf _ eq_refl H1).
Qed.

Lemma IConfig_decode_names_a_property o es :
  IConfig_decode o = Left es -> es <> [].
Proof.
  unfold IConfig_decode. revert es.
  repeat (apply ap_names_a_property;
          [| intros es; unfold required, optional;
             repeat match goal with
                    | |- context [match ?x with _ => _ end] => destruct x
                    end;
             intros H; try discriminate; injection H as <-; discriminate ]).
  intros es H. discriminate.
Qed.

Lemma IConfig_decode_valid_iff o :
  (exists c, IConfig_decode o = Right c)
  <-> forall k, ~ In k (errorsOf (IConfig_decode o)).
Proof.
  destruct (IConfig_decode o) as [es|c] eqn:Hd; cbn.
  - split; [intros [c Hc]; discriminate|].
    intros Hnone. destruct es as [|k es].
    + destruct (IConfig_decode_names_a_property _ _ Hd eq_refl).
    + destruct (Hnone k). left. reflexivity.
  - split; [tauto | eauto].
Qed.

Ltac pick_property :=
  first [ split; [reflexivity | eassumption]
        | left; pick_property
        | right; pick_property ].

Ltac pick_key := cbn; repeat (first [left; reflexivity | right]).

(** The properties named by a failed validation, by codec. *)
Lemma IConfig_decode_errors o k :
  In k (errorsOf (IConfig_decode o))
  <-> (In k requiredStrings /\ o !! k ≫= NonEmptyString_is = None)
      \/ (In k numericKeys /\ o !! k ≫= NonNegativeInteger_is = None)
      \/ (k = "isProduction" /\ o !! k ≫= boolean_is = None)
      \/ (In k optionalStrings
          /\ exists v, o !! k = Some v /\ NonEmptyString_is v = None)
      \/ (In k ["REDIS_CLUSTER_ENABLED"; "REDIS_TLS_ENABLED"]
          /\ exists v, o !! k = Some v /\ boolean_is v = None).
Proof.
  unfold IConfig_decode. rewrite !errorsOf_ap. cbn [errorsOf app].
  rewrite !in_app_iff, !in_errors_required, !in_errors_optional.
  split.
  - intros H.
    repeat match type of H with
           | _ \/ _ => destruct H as [H|H]
           end;
      destruct H as [-> H];
      first [ left; split; [pick_key | exact H]
            | right; left; split; [pick_key | exact H]
            | right; right; left; split; [reflexivity | exact H]
            | right; right; right; left; split; [pick_key | exact H]
            | right; right; right; right; split; [pick_key | exact H] ].
  - unfold requiredStrings, numericKeys, optionalStrings. cbn [In].
    intros H.
    repeat match type of H with
           | _ \/ _ => destruct H as [H|H]
           | _ /\ _ => let Hk := fresh "Hk" in destruct H as [Hk H]
           end;
      repeat match goal with
             | Hk : _ \/ _ |- _ => destruct Hk as [Hk|Hk]
             | Hk : False |- _ => destruct Hk
             end;
      subst; pick_property.
Qed.

(** A validated configuration holds what each property validated to. *)
Lemma IConfig_decode_fields o c :
  IConfig_decode o = Right c ->
  required o "APPINSIGHTS_INSTRUMENTATIONKEY" NonEmptyString_is
  = Right (APPINSIGHTS_INSTRUMENTATIONKEY c)
  /\ required o "CGN_EXPIRATION_TABLE_NAME" NonEmptyString_is
     = Right (CGN_EXPIRATION_TABLE_NAME c)
  /\ required o "EYCA_EXPIRATION_TABLE_NAME" NonEmptyString_is
     = Right (EYCA_EXPIRATION_TABLE_NAME c)
  /\ required o "COSMOSDB_CGN_DATABASE_NAME" NonEmptyString_is
     = Right (COSMOSDB_CGN_DATABASE_NAME c)
  /\ required o "COSMOSDB_CGN_KEY" NonEmptyString_is
     = Right (COSMOSDB_CGN_KEY c)
  /\ required o "COSMOSDB_CGN_URI" NonEmptyString_is
     = Right (COSMOSDB_CGN_URI c)
  /\ required o "AzureWebJobsStorage" NonEmptyString_is
     = Right (AzureWebJobsStorage c)
  /\ required o "CGN_STORAGE_CONNECTION_STRING" NonEmptyString_is
     = Right (CGN_STORAGE_CONNECTION_STRING c)
  /\ required o "EYCA_API_BASE_URL" NonEmptyString_is
     = Right (EYCA_API_BASE_URL c)
  /\ required o "EYCA_API_PASSWORD" NonEmptyString_is
     = Right (EYCA_API_PASSWORD c)
  /\ required o "EYCA_API_USERNAME" NonEmptyString_is
     = Right (EYCA_API_USERNAME c)
  /\ required o "REDIS_URL" NonEmptyString_is = Right (REDIS_URL c)
  /\ required o "isProduction" boolean_is = Right (isProduction c)
  /\ optional o "REDIS_CLUSTER_ENABLED" boolean_is
     = Right (REDIS_CLUSTER_ENABLED c)
  /\ optional o "REDIS_PASSWORD" NonEmptyString_is = Right (REDIS_PASSWORD c)
  /\ optional o "REDIS_PORT" NonEmptyString_is = Right (REDIS_PORT c)
  /\ optional o "REDIS_TLS_ENABLED" boolean_is = Right (REDIS_TLS_ENABLED c).
Proof.
  unfold IConfig_decode. intros H.
  repeat match type of H with
         | ap _ _ = Right _ =>
             let g := fresh "g" in
             let a := fresh "a" in
             let Hx := fresh "Hx" in
             apply ap_Right in H;
             destruct H as (g & a & H & Hx & ->)
         end.
  injection H as <-. cbn. repeat split; assumption.
Qed.

End ConfigurationMore.

Section ConfigurationFromEnv.

Import Config.

Variable stringToInteger : string -> option Z.
Variable readableReport : list string -> string.

Lemma rawConfig_strings env k :
  In k requiredStrings \/ In k optionalStrings ->
  rawConfig stringToInteger env !! k = VString <$> env !! k.
Proof.
  unfold requiredStrings, optionalStrings, rawConfig. cbn [In].
  intros H.
  repeat match type of H with
         | _ \/ _ => destruct H as [H|H]
         | False => destruct H
         end;
    subst k;
    rewrite !lookup_setProp_ne by discriminate;
    apply lookup_fmap.
Qed.

Lemma rawConfig_flags env :
  rawConfig stringToInteger env !! "REDIS_CLUSTER_ENABLED"
  = booleanFlag (env !! "REDIS_CLUSTER_ENABLED")
  /\ rawConfig stringToInteger env !! "REDIS_TLS_ENABLED"
     = booleanFlag (env !! "REDIS_TLS_ENABLED")
  /\ rawConfig stringToInteger env !! "isProduction"
     = Some (VBoolean
               match env !! "NODE_ENV" with
               | Some s => String.eqb s "production"
               | None => false
               end).
Proof.
  unfold rawConfig.
  repeat split;
    repeat (first [ rewrite lookup_setProp_eq
                  | rewrite lookup_setProp_ne by discriminate ]);
    reflexivity.
Qed.

Lemma rawConfig_number env key :
  In key numericKeys ->
  exists dflt,
    (0 <= dflt)%Z
    /\ rawConfig stringToInteger env !! key
       = Some (integerOr stringToInteger dflt (env !! key)).
Proof.
  destruct (rawConfig_numbers stringToInteger env) as (Hcgn & Heyca & Hotp).
  unfold numericKeys. cbn [In].
  intros [<- | [<- | [<- | []]]]; eexists; (split; [|eassumption]);
    unfold DEFAULT_CGN_UPPER_BOUND_AGE, DEFAULT_EYCA_UPPER_BOUND_AGE; lia.
Qed.

Lemma integerOr_invalid dflt u :
  (0 <= dflt)%Z ->
  NonNegativeInteger_is (integerOr stringToInteger dflt u) = None
  <-> exists s n, u = Some s /\ stringToInteger s = Some n /\ (n < 0)%Z.
Proof.
  intros Hpos. unfold integerOr, IntegerFromString_decode, NonNegativeInteger_is.
  destruct u as [s|]; [destruct (stringToInteger s) as [n|] eqn:Hs|];
    unfold Js.map, getOrElse.
  - destruct (Z.leb_spec 0 n).
    + split; [discriminate|]. intros (s' & n' & Hs' & Hn' & Hneg).
      injection Hs' as <-. rewrite Hs in Hn'. injection Hn' as <-. lia.
    + split; [|reflexivity]. intros _. exists s, n. auto.
  - destruct (Z.leb_spec 0 dflt); [|lia].
    split; [discriminate|]. intros (s' & n' & Hs' & Hn' & _).
    injection Hs' as <-. congruence.
  - destruct (Z.leb_spec 0 dflt); [|lia].
    split; [discriminate|]. intros (s' & n' & Hs' & _). discriminate.
Qed.

(** The variables a failed validation names, read on the environment. *)
Lemma invalid_variables env k :
  In k (errorsOf (errorOrConfig stringToInteger env))
  <-> (In k requiredStrings
       /\ (env !! k = None \/ env !! k = Some EmptyString))
      \/ (In k optionalStrings /\ env !! k = Some EmptyString)
      \/ (In k numericKeys
          /\ exists s n,
               env !! k = Some s /\ stringToInteger s = Some n /\ (n < 0)%Z).
Proof.
  unfold errorOrConfig. rewrite IConfig_decode_errors.
  destruct (rawConfig_flags env) as (Hcluster & Htls & Hprod).
  split.
  - intros [[Hk H] | [[Hk H] | [[-> H] | [[Hk H] | [Hk H]]]]].
    + left. split; [exact Hk|].
      rewrite rawConfig_strings in H by (left; exact Hk).
      destruct (env !! k) as [[|x s]|]; cbn in H; auto; discriminate.
    + right. right. split; [exact Hk|].
      destruct (rawConfig_number env k Hk) as (dflt & Hpos & Hraw).
      rewrite Hraw in H. cbn in H.
      apply (integerOr_invalid dflt _ Hpos). exact H.
    + rewrite Hprod in H. discriminate H.
    + right. left. split; [exact Hk|].
      destruct H as (v & Hv & Hnone).
      rewrite rawConfig_strings in Hv by (right; exact Hk).
      destruct (env !! k) as [[|x s]|]; cbn in Hv; try discriminate.
      * reflexivity.
      * injection Hv as <-. discriminate Hnone.
    + destruct H as (v & Hv & Hnone).
      destruct Hk as [<- | [<- | []]].
      * rewrite Hcluster in Hv. unfold booleanFlag, fromNullable in Hv.
        destruct (env !! "REDIS_CLUSTER_ENABLED"); cbn in Hv;
          [injection Hv as <-|]; discriminate.
      * rewrite Htls in Hv. unfold booleanFlag, fromNullable in Hv.
        destruct (env !! "REDIS_TLS_ENABLED"); cbn in Hv;
          [injection Hv as <-|]; discriminate.
  - intros [[Hk H] | [[Hk H] | [Hk H]]].
    + left. split; [exact Hk|].
      rewrite rawConfig_strings by (left; exact Hk).
      destruct H as [-> | ->]; reflexivity.
    + right. right. right. left. split; [exact Hk|].
      exists (VString EmptyString).
      rewrite rawConfig_strings by (right; exact Hk).
      rewrite H. split; reflexivity.
    + right. left. split; [exact Hk|].
      destruct (rawConfig_number env k Hk) as (dflt & Hpos & Hraw).
      rewrite Hraw. cbn.
      apply (integerOr_invalid dflt _ Hpos). exact H.
Qed.

End ConfigurationFromEnv.

Section ConfigurationExtras.

Import Config.

Variable stringToInteger : string -> option Z.
Variable readableReport : list string -> string.

Ltac listed := cbn; solve [repeat (first [left; reflexivity | right])].

(** X20.  The errors of a failed validation name exactly the variables
    that are wrong: a required string that is missing or empty, an
    optional string of the Redis parameters that is set to the empty
    string, and a numeric variable whose text is a negative integer.
    Nothing else is ever named: not the flags, not [isProduction], not a
    numeric variable that is missing or is no integer. *)
Theorem config_errors_name_wrong_variables
  (env : gmap string string) (k : string) :
  In k (errorsOf (errorOrConfig stringToInteger env))
  <-> (In k requiredStrings
       /\ (env !! k = None \/ env !! k = Some EmptyString))
      \/ (In k optionalStrings /\ env !! k = Some EmptyString)
      \/ (In k numericKeys
          /\ exists s n,
               env !! k = Some s /\ stringToInteger s = Some n /\ (n < 0)%Z).
Proof. exact (invalid_variables stringToInteger env k). Qed.

(** X21.  [getConfigOrThrow] returns a configuration exactly when every
    required string variable is set and not empty, no optional string of
    the Redis parameters is set to the empty string, and no numeric
    variable is the text of a negative integer. *)
Theorem config_valid_iff (env : gmap string string) :
  (exists c, getConfigOrThrow stringToInteger readableReport env = Return c)
  <-> (forall k, In k requiredStrings ->
         exists s, env !! k = Some s /\ s <> EmptyString)
      /\ (forall k, In k optionalStrings -> env !! k <> Some EmptyString)
      /\ (forall k s n, In k numericKeys ->
            env !! k = Some s -> stringToInteger s = Some n -> (0 <= n)%Z).
Proof.
  assert (Hret :
            (exists c,
               getConfigOrThrow stringToInteger readableReport env = Return c)
            <-> exists c, errorOrConfig stringToInteger env = Right c).
  { unfold getConfigOrThrow.
    destruct (errorOrConfig stringToInteger env) as [es|c].
    - split; intros [c H]; discriminate.
    - split; eauto. }
  pose proof (IConfig_decode_valid_iff (rawConfig stringToInteger env))
    as Hvalid.
  change (IConfig_decode (rawConfig stringToInteger env))
    with (errorOrConfig stringToInteger env) in Hvalid.
  pose proof (fun k => proj1 (invalid_variables stringToInteger env k))
    as Hwrong.
  pose proof (fun k => proj2 (invalid_variables stringToInteger env k))
    as Hnamed.
  split.
  - intros Hc'. pose proof (proj1 Hvalid (proj1 Hret Hc')) as Hc.
    split; [|split].
    + intros k Hk.
      destruct (env !! k) as [[|x s]|] eqn:Henv.
      * destruct (Hc k). apply Hnamed. left. auto.
      * exists (String x s). split; [reflexivity | discriminate].
      * destruct (Hc k). apply Hnamed. left. auto.
    + intros k Hk Hempty.
      destruct (Hc k). apply Hnamed. right. left. auto.
    + intros k s n Hk Hs Hn.
      destruct (Z.le_gt_cases 0 n) as [Hle|Hlt]; [exact Hle|].
      destruct (Hc k). apply Hnamed. right. right.
      split; [exact Hk|]. exists s, n. auto.
  - intros (Hreq & Hopt & Hnum).
    apply (proj2 Hret). apply (proj2 Hvalid). intros k Hin.
    apply Hwrong in Hin.
    destruct Hin as [[Hk H] | [[Hk H] | (Hk & s & n & Hs & Hn & Hneg)]].
    + destruct (Hreq k Hk) as (s & Hs & Hne).
      destruct H as [H|H]; congruence.
    + exact (Hopt k Hk H).
    + specialize (Hnum k s n Hk Hs Hn). lia.
Qed.

(** X22.  A numeric variable set to the text of a negative integer is
    not replaced by the default: the validation names it, and
    [getConfigOrThrow] throws "Invalid configuration: " followed by the
    report of errors that include it. *)
Theorem config_rejects_negative_number
  (env : gmap string string) (k s : string) (n : Z) :
  In k numericKeys ->
  env !! k = Some s ->
  stringToInteger s = Some n ->
  (n < 0)%Z ->
  exists errors,
    In k errors
    /\ errorOrConfig stringToInteger env = Left errors
    /\ getConfigOrThrow stringToInteger readableReport env
       = Throw (mkError ("Invalid configuration: " +:+ readableReport errors)).
Proof.
  intros Hk Hs Hn Hneg.
  assert (Hin : In k (errorsOf (errorOrConfig stringToInteger env))).
  { apply (proj2 (invalid_variables stringToInteger env k)).
    right. right. split; [exact Hk|]. exists s, n. auto. }
  unfold getConfigOrThrow.
  destruct (errorOrConfig stringToInteger env) as [errors|c]; [|destruct Hin].
  exists errors. repeat split. exact Hin.
Qed.

Ltac string_field env H :=
  unfold required, optional in H;
  rewrite rawConfig_strings in H by (first [left; listed | right; listed]);
  match type of H with
  | context [env !! ?key] =>
      destruct (env !! key) as [[|? ?]|]; cbn in H; congruence
  end.

(** X23.  A validated configuration carries the text of the environment
    unchanged in each of its string properties, and the optional Redis
    password and port exactly when they are set. *)
Theorem config_strings_pass_through (env : gmap string string) (c : IConfig) :
  errorOrConfig stringToInteger env = Right c ->
  env !! "APPINSIGHTS_INSTRUMENTATIONKEY"
  = Some (APPINSIGHTS_INSTRUMENTATIONKEY c)
  /\ env !! "CGN_EXPIRATION_TABLE_NAME" = Some (CGN_EXPIRATION_TABLE_NAME c)
  /\ env !! "EYCA_EXPIRATION_TABLE_NAME" = Some (EYCA_EXPIRATION_TABLE_NAME c)
  /\ env !! "COSMOSDB_CGN_DATABASE_NAME" = Some (COSMOSDB_CGN_DATABASE_NAME c)
  /\ env !! "COSMOSDB_CGN_KEY" = Some (COSMOSDB_CGN_KEY c)
  /\ env !! "COSMOSDB_CGN_URI" = Some (COSMOSDB_CGN_URI c)
  /\ env !! "AzureWebJobsStorage" = Some (AzureWebJobsStorage c)
  /\ env !! "CGN_STORAGE_CONNECTION_STRING"
     = Some (CGN_STORAGE_CONNECTION_STRING c)
  /\ env !! "EYCA_API_BASE_URL" = Some (EYCA_API_BASE_URL c)
  /\ env !! "EYCA_API_PASSWORD" = Some (EYCA_API_PASSWORD c)
  /\ env !! "EYCA_API_USERNAME" = Some (EYCA_API_USERNAME c)
  /\ env !! "REDIS_URL" = Some (REDIS_URL c)
  /\ env !! "REDIS_PASSWORD" = REDIS_PASSWORD c
  /\ env !! "REDIS_PORT" = REDIS_PORT c.
Proof.
  unfold errorOrConfig. intros Hc.
  apply IConfig_decode_fields in Hc
    as (H1 & H2 & H3 & H4 & H5 & H6 & H7 & H8 & H9 & H10 & H11 & H12
        & _ & _ & H13 & H14 & _).
  repeat split;
    [ string_field env H1 | string_field env H2 | string_field env H3 | string_field env H4
    | string_field env H5 | string_field env H6 | string_field env H7 | string_field env H8
    | string_field env H9 | string_field env H10 | string_field env H11
    | string_field env H12 | string_field env H13 | string_field env H14 ].
Qed.

Lemma required_integerOr o key dflt u (field : Z) :
  o !! key = Some (integerOr stringToInteger dflt u) ->
  required o key NonNegativeInteger_is = Right field ->
  (0 <= field)%Z
  /\ forall s n, u = Some s -> stringToInteger s = Some n -> field = n.
Proof.
  intros Ho H. unfold required in H. rewrite Ho in H.
  unfold integerOr in *. cbn [mbind option_bind NonNegativeInteger_is] in H.
  destruct (Z.leb_spec 0
              (getOrElse (fun _ => dflt)
                 (Js.map (fun n : Z => n)
                    (IntegerFromString_decode stringToInteger u))))
    as [Hle|Hgt]; [|discriminate H].
  injection H as <-. split; [exact Hle|].
  intros s n -> Hs. unfold IntegerFromString_decode. rewrite Hs. reflexivity.
Qed.

(** X24.  A numeric variable that is the text of an integer is used as
    it is in a validated configuration; the three numbers of a validated
    configuration are never negative. *)
Theorem config_numbers_kept (env : gmap string string) (c : IConfig) :
  errorOrConfig stringToInteger env = Right c ->
  (forall s n, env !! "CGN_UPPER_BOUND_AGE" = Some s ->
               stringToInteger s = Some n -> CGN_UPPER_BOUND_AGE c = n)
  /\ (forall s n, env !! "EYCA_UPPER_BOUND_AGE" = Some s ->
                  stringToInteger s = Some n -> EYCA_UPPER_BOUND_AGE c = n)
  /\ (forall s n, env !! "OTP_TTL_IN_SECONDS" = Some s ->
                  stringToInteger s = Some n -> OTP_TTL_IN_SECONDS c = n)
  /\ (0 <= CGN_UPPER_BOUND_AGE c)%Z
  /\ (0 <= EYCA_UPPER_BOUND_AGE c)%Z
  /\ (0 <= OTP_TTL_IN_SECONDS c)%Z.
Proof.
  unfold errorOrConfig. intros Hc.
  apply IConfig_decode_numbers in Hc as (Hcgn & Heyca & Hotp).
  destruct (rawConfig_numbers stringToInteger env) as (Rcgn & Reyca & Rotp).
  destruct (required_integerOr _ _ _ _ _ Rcgn Hcgn) as (Pcgn & Kcgn).
  destruct (required_integerOr _ _ _ _ _ Reyca Heyca) as (Peyca & Keyca).
  destruct (required_integerOr _ _ _ _ _ Rotp Hotp) as (Potp & Kotp).
  repeat split; auto.
Qed.

(** X25.  In a validated configuration each of the two Redis flags is
    absent when its variable is missing and is otherwise true exactly when
    the text, put in lower case, is "true": any other text gives false,
    never an error.  [isProduction] is true exactly when NODE_ENV is
    "production", whatever the environment holds under the name
    isProduction. *)
Theorem config_flags (env : gmap string string) (c : IConfig) :
  errorOrConfig stringToInteger env = Right c ->
  REDIS_CLUSTER_ENABLED c
  = (fun s => String.eqb (toLowerCase s) "true")
    <$> env !! "REDIS_CLUSTER_ENABLED"
  /\ REDIS_TLS_ENABLED c
     = (fun s => String.eqb (toLowerCase s) "true")
       <$> env !! "REDIS_TLS_ENABLED"
  /\ (isProduction c = true <-> env !! "NODE_ENV" = Some "production").
Proof.
  unfold errorOrConfig. intros Hc.
  apply IConfig_decode_fields in Hc
    as (_ & _ & _ & _ & _ & _ & _ & _ & _ & _ & _ & _
        & Hprod & Hcluster & _ & _ & Htls).
  destruct (rawConfig_flags stringToInteger env) as (Rcluster & Rtls & Rprod).
  unfold required in Hprod. unfold optional in Hcluster, Htls.
  rewrite Rprod in Hprod. rewrite Rcluster in Hcluster. rewrite Rtls in Htls.
  unfold booleanFlag, fromNullable in Hcluster, Htls.
  split; [|split].
  - destruct (env !! "REDIS_CLUSTER_ENABLED"); cbn in Hcluster |- *; congruence.
  - destruct (env !! "REDIS_TLS_ENABLED"); cbn in Htls |- *; congruence.
  - cbn in Hprod. injection Hprod as <-.
    destruct (env !! "NODE_ENV") as [s|].
    + rewrite String.eqb_eq. split; congruence.
    + split; discriminate.
Qed.

End ConfigurationExtras.

Section ConfigurationExtrasScenarios.

Import Config.

Lemma config_rejects_negative_number_witness :
  exists errors,
    In "EYCA_UPPER_BOUND_AGE" errors
    /\ getConfigOrThrow Samples.decimal Samples.report
         MoreSamples.negativeAgeEnv
       = Throw (mkError ("Invalid configuration: " +:+ Samples.report errors)).
Proof.
  destruct (config_rejects_negative_number Samples.decimal Samples.report
              MoreSamples.negativeAgeEnv "EYCA_UPPER_BOUND_AGE" "-5" (-5)%Z)
    as (errors & Hin & _ & Hthrow).
  - cbn. tauto.
  - vm_compute. reflexivity.
  - reflexivity.
  - lia.
  - exists errors. split; [exact Hin | exact Hthrow].
Defined.

Lemma fullEnv_valid :
  exists c, errorOrConfig Samples.decimal MoreSamples.fullEnv = Right c.
Proof. vm_compute. eexists. reflexivity. Qed.

Lemma config_strings_pass_through_witness :
  exists c,
    errorOrConfig Samples.decimal MoreSamples.fullEnv = Right c
    /\ REDIS_PASSWORD c = Some "hunter2"
    /\ REDIS_PORT c = None
    /\ REDIS_URL c = "redis://cache".
Proof.
  destruct fullEnv_valid as (c & Hc). exists c. split; [exact Hc|].
  destruct (config_strings_pass_through Samples.decimal MoreSamples.fullEnv c Hc)
    as (_ & _ & _ & _ & _ & _ & _ & _ & _ & _ & _ & Hurl & Hpwd & Hport).
  split; [|split].
  - rewrite <- Hpwd. vm_compute. reflexivity.
  - rewrite <- Hport. vm_compute. reflexivity.
  - assert (H : MoreSamples.fullEnv !! "REDIS_URL" = Some "redis://cache")
      by (vm_compute; reflexivity).
    congruence.
Defined.

Lemma config_numbers_kept_witness :
  exists c,
    errorOrConfig Samples.decimal MoreSamples.fullEnv = Right c
    /\ CGN_UPPER_BOUND_AGE c = 40%Z.
Proof.
  destruct fullEnv_valid as (c & Hc). exists c. split; [exact Hc|].
  destruct (config_numbers_kept Samples.decimal MoreSamples.fullEnv c Hc)
    as (Hcgn & _).
  apply (Hcgn "40"); [vm_compute; reflexivity | reflexivity].
Defined.

Lemma config_flags_witness :
  exists c,
    errorOrConfig Samples.decimal MoreSamples.fullEnv = Right c
    /\ REDIS_TLS_ENABLED c = Some true
    /\ REDIS_CLUSTER_ENABLED c = Some false
    /\ isProduction c = true.
Proof.
  destruct fullEnv_valid as (c & Hc). exists c. split; [exact Hc|].
  destruct (config_flags Samples.decimal MoreSamples.fullEnv c Hc)
    as (Hcluster & Htls & Hprod).
  split; [|split].
  - rewrite Htls. vm_compute. reflexivity.
  - rewrite Hcluster. vm_compute. reflexivity.
  - apply Hprod. vm_compute. reflexivity.
Defined.

End ConfigurationExtrasScenarios.
